(** * nsac.py: joystick decoders and the hot-plug loop of the NSGadget adapter

    A shallow embedding of [src/nsac.py].  Python integers are [Z], the
    [array.array('B', ...)] tables are lists indexed with Python's rules,
    exceptions are an error monad, the calls made on the global [NSG]
    object are collected as a trace, and the [joysticks] dictionary of
    [main] is a [gmap]. *)

From Stdlib Require Import ZArith Lia.
From Stdlib.Strings Require Import Byte Ascii String.
From stdpp Require Import gmap strings list fin_maps.

Local Open Scope Z_scope.

(** ** Exceptions *)

Inductive exn := IndexError | struct_error | OSError.

Inductive result (A : Type) : Type :=
| Ok (a : A)
| Raise (e : exn).
Arguments Ok {A} a.
Arguments Raise {A} e.

#[export] Instance result_ret : MRet result := @Ok.
#[export] Instance result_bind : MBind result :=
  fun A B f r => match r with Ok a => f a | Raise e => Raise e end.

(** [a[i]] on a Python sequence: a negative index counts from the end,
    anything outside [-len, len) raises IndexError. *)
Definition getitem {A} (a : list A) (i : Z) : result A :=
  let n := Z.of_nat (length a) in
  let j := if i <? 0 then i + n else i in
  if (0 <=? j) && (j <? n)
  then match a !! Z.to_nat j with Some x => Ok x | None => Raise IndexError end
  else Raise IndexError.

(** ** The NSGadget interface (module nsgpadserial) *)

(** Modelled from the spec: the enumerations [NSButton] and [NSDPad] of
    module nsgpadserial, which is not under src/.  Section 6 of the
    specification lists the fourteen buttons and the nine directions;
    nsac.py uses them by name only, never by value. *)

Module NSButton.
Inductive t :=
| A | B | X | Y | LEFT_TRIGGER | RIGHT_TRIGGER | LEFT_THROTTLE
| RIGHT_THROTTLE | MINUS | PLUS | HOME | CAPTURE | LEFT_STICK | RIGHT_STICK.
End NSButton.

Module NSDPad.
Inductive t :=
| CENTERED | UP | UP_RIGHT | RIGHT | DOWN_RIGHT | DOWN | DOWN_LEFT | LEFT | UP_LEFT.
End NSDPad.

(** An entry of a button table: a named NS button, or a number written
    literally in the table (255 for the direction buttons of the arcade
    stick, 14 and 15 in the T.16000M table, the raw button number in the
    HoriPad decoder). *)
Inductive button_code :=
| ns (b : NSButton.t)
| raw (n : Z).

(** [button_out == 255].  The NSButton values are small: [gpio_handler]
    tells them from its direction markers 252..255 by [ns_button < 128]. *)
Definition is_255 (c : button_code) : bool :=
  match c with
  | ns _ => false
  | raw n => n =? 255
  end.

(** The methods of [NSG] that the [read_*] functions call; a decoder is
    observed through the list of calls it makes. *)
Inductive call :=
| press (b : button_code)
| release (b : button_code)
| leftXAxis (v : Z)
| leftYAxis (v : Z)
| rightXAxis (v : Z)
| rightYAxis (v : Z)
| dPadXAxis (v : Z)
| dPadYAxis (v : Z)
| dPad (d : NSDPad.t).

Definition is_press (c : call) : bool :=
  match c with press _ => true | _ => false end.

Definition is_press_or_release (c : call) : bool :=
  match c with press _ | release _ => true | _ => false end.

(** The value a call carries, for the calls that carry an axis value. *)
Definition axis_value (c : call) : option Z :=
  match c with
  | leftXAxis v | leftYAxis v | rightXAxis v | rightYAxis v
  | dPadXAxis v | dPadYAxis v => Some v
  | _ => None
  end.

(** ** BUTTONS_MAP_DPAD *)

Definition BUTTONS_MAP_DPAD : list NSDPad.t :=
  [ NSDPad.CENTERED     (* 0000 *)
  ; NSDPad.UP           (* 0001 *)
  ; NSDPad.RIGHT        (* 0010 *)
  ; NSDPad.UP_RIGHT     (* 0011 *)
  ; NSDPad.DOWN         (* 0100 *)
  ; NSDPad.CENTERED     (* 0101 *)
  ; NSDPad.DOWN_RIGHT   (* 0110 *)
  ; NSDPad.CENTERED     (* 0111 *)
  ; NSDPad.LEFT         (* 1000 *)
  ; NSDPad.UP_LEFT      (* 1001 *)
  ; NSDPad.CENTERED     (* 1010 *)
  ; NSDPad.CENTERED     (* 1011 *)
  ; NSDPad.DOWN_LEFT    (* 1100 *)
  ; NSDPad.CENTERED     (* 1101 *)
  ; NSDPad.CENTERED     (* 1110 *)
  ; NSDPad.CENTERED     (* 1111 *)
  ].

(** ** Joystick events *)

Record js_event := {
  timestamp : Z;
  value : Z;
  type : Z;
  number : Z
}.

Definition u8 (b : byte) : Z := Z.of_N (Byte.to_N b).

(** Little-endian unsigned number (the native order of the Raspberry Pi). *)
Definition le_uint (bs : list byte) : Z :=
  foldr (fun b acc => u8 b + 256 * acc) 0 bs.

Definition to_int16 (u : Z) : Z := if u <? 32768 then u else u - 65536.

(** [unpack('IhBB', evbuf)]: four fields in 8 bytes, struct.error for any
    other length. *)
Definition unpack_IhBB (evbuf : list byte) : result js_event :=
  match evbuf with
  | [t0; t1; t2; t3; v0; v1; ty; nu] =>
      Ok {| timestamp := le_uint [t0; t1; t2; t3];
            value := to_int16 (le_uint [v0; v1]);
            type := u8 ty;
            number := u8 nu |}
  | _ => Raise struct_error
  end.

(** ** The decode loop shared by every [read_*] function *)

(** What [jsdev.read(8)] does on one iteration. *)
Inductive read_result :=
| read_raises
| read_returns (evbuf : list byte).

(** How the thread stands once the given reads are consumed. *)
Inductive status :=
| in_read            (* blocked in jsdev.read, the loop goes on *)
| closed             (* read raised: jsdev.close(), break, thread ends *)
| died (e : exn).    (* an exception left the loop, thread ends *)

Section decode_loop.
Context {S : Type}.
Variable on_event : S -> js_event -> result (S * list call).

Fixpoint decode_loop (s : S) (reads : list read_result)
  : status * S * list call :=
  match reads with
  | [] => (in_read, s, [])
  | read_raises :: _ => (closed, s, [])
  | read_returns [] :: rest => decode_loop s rest
  | read_returns evbuf :: rest =>
      match unpack_IhBB evbuf ≫= on_event s with
      | Raise e => (died e, s, [])
      | Ok (s', out) =>
          let '(st, s'', out') := decode_loop s' rest in
          (st, s'', out ++ out')
      end
  end.
End decode_loop.

(** [if value: NSG.press(b) else: NSG.release(b)] *)
Definition press_or_release (value : Z) (b : button_code) : list call :=
  if value =? 0 then [release b] else [press b].

(** ** read_horipad *)

Definition read_horipad_event (_ : unit) (ev : js_event)
  : result (unit * list call) :=
  let out1 :=
    if type ev =? 1 then press_or_release (value ev) (raw (number ev))
    else [] in
  let out2 :=
    if type ev =? 2 then
      let axis := Z.shiftr (value ev + 32768) 8 in
      if number ev =? 0 then [leftXAxis axis]
      else if number ev =? 1 then [leftYAxis axis]
      else if number ev =? 2 then [rightXAxis axis]
      else if number ev =? 3 then [rightYAxis axis]
      else if number ev =? 4 then [dPadXAxis axis]
      else if number ev =? 5 then [dPadYAxis axis]
      else []
    else [] in
  Ok (tt, out1 ++ out2).

Definition read_horipad := decode_loop read_horipad_event tt.

(** The button branch of the table-driven decoders:
    [button_out = BUTTON_MAP[number]], then press or release.  The lookup
    is outside the [try] of the loop. *)
Definition mapped_button (BUTTON_MAP : list button_code) (ev : js_event)
  : result (list call) :=
  button_out ← getitem BUTTON_MAP (number ev);
  mret (press_or_release (value ev) button_out).

(** ** read_hori_wheel *)

Definition hori_wheel_BUTTON_MAP : list button_code :=
  [ ns NSButton.A; ns NSButton.B; ns NSButton.X; ns NSButton.Y;
    ns NSButton.LEFT_TRIGGER; ns NSButton.RIGHT_TRIGGER;
    ns NSButton.MINUS; ns NSButton.PLUS; ns NSButton.HOME;
    ns NSButton.LEFT_STICK; ns NSButton.RIGHT_STICK ].

Record wheel_locals := {
  last_left_throttle : Z;
  last_right_throttle : Z;
  last_wheel : Z
}.

Definition wheel_start : wheel_locals :=
  {| last_left_throttle := 0; last_right_throttle := 0; last_wheel := 128 |}.

Definition read_hori_wheel_event (s : wheel_locals) (ev : js_event)
  : result (wheel_locals * list call) :=
  out1 ← (if type ev =? 1 then mapped_button hori_wheel_BUTTON_MAP ev
          else mret []);
  let '(s', out2) :=
    if type ev =? 2 then
      let axis := Z.shiftr (value ev + 32768) 8 in
      if number ev =? 0 then
        (s, if negb (last_wheel s =? axis) then [leftXAxis axis] else [])
      else if number ev =? 1 then (s, [leftYAxis axis])
      else if number ev =? 2 then
        if negb (last_left_throttle s =? axis) then
          ({| last_left_throttle := axis;
              last_right_throttle := last_right_throttle s;
              last_wheel := last_wheel s |},
           if axis >? 64 then [press (ns NSButton.LEFT_THROTTLE)]
           else [release (ns NSButton.LEFT_THROTTLE)])
        else (s, [])
      else if number ev =? 3 then (s, [rightXAxis axis])
      else if number ev =? 4 then (s, [rightYAxis axis])
      else if number ev =? 5 then
        if negb (last_right_throttle s =? axis) then
          ({| last_left_throttle := last_left_throttle s;
              last_right_throttle := axis;
              last_wheel := last_wheel s |},
           if axis >? 64 then [press (ns NSButton.RIGHT_THROTTLE)]
           else [release (ns NSButton.RIGHT_THROTTLE)])
        else (s, [])
      else if number ev =? 6 then (s, [dPadXAxis axis])
      else if number ev =? 7 then (s, [dPadYAxis axis])
      else (s, [])
    else (s, []) in
  mret (s', out1 ++ out2).

Definition read_hori_wheel := decode_loop read_hori_wheel_event wheel_start.

(** ** read_xbox1 *)

Definition xbox1_BUTTON_MAP : list button_code :=
  [ ns NSButton.B; ns NSButton.A; ns NSButton.Y; ns NSButton.X;
    ns NSButton.LEFT_TRIGGER; ns NSButton.RIGHT_TRIGGER;
    ns NSButton.MINUS; ns NSButton.PLUS; ns NSButton.HOME;
    ns NSButton.LEFT_STICK; ns NSButton.RIGHT_STICK ].

Definition read_xbox1_event (_ : unit) (ev : js_event)
  : result (unit * list call) :=
  out1 ← (if type ev =? 1 then mapped_button xbox1_BUTTON_MAP ev
          else mret []);
  let out2 :=
    if type ev =? 2 then
      let axis := Z.shiftr (value ev + 32768) 8 in
      if number ev =? 0 then [leftXAxis axis]
      else if number ev =? 1 then [leftYAxis axis]
      else if number ev =? 2 then
        if axis >? 128 then [press (ns NSButton.LEFT_THROTTLE)]
        else [release (ns NSButton.LEFT_THROTTLE)]
      else if number ev =? 3 then [rightXAxis axis]
      else if number ev =? 4 then [rightYAxis axis]
      else if number ev =? 5 then
        if axis >? 128 then [press (ns NSButton.RIGHT_THROTTLE)]
        else [release (ns NSButton.RIGHT_THROTTLE)]
      else if number ev =? 6 then [dPadXAxis axis]
      else if number ev =? 7 then [dPadYAxis axis]
      else []
    else [] in
  mret (tt, out1 ++ out2).

Definition read_xbox1 := decode_loop read_xbox1_event tt.

(** ** read_ps4ds *)

Definition ps4ds_BUTTON_MAP : list button_code :=
  [ ns NSButton.B; ns NSButton.A; ns NSButton.Y; ns NSButton.X;
    ns NSButton.LEFT_TRIGGER; ns NSButton.RIGHT_TRIGGER;
    ns NSButton.LEFT_THROTTLE; ns NSButton.RIGHT_THROTTLE;
    ns NSButton.MINUS; ns NSButton.PLUS; ns NSButton.HOME;
    ns NSButton.LEFT_STICK; ns NSButton.RIGHT_STICK ].

Definition read_ps4ds_event (_ : unit) (ev : js_event)
  : result (unit * list call) :=
  out1 ← (if type ev =? 1 then mapped_button ps4ds_BUTTON_MAP ev
          else mret []);
  let out2 :=
    if type ev =? 2 then
      let axis := Z.shiftr (value ev + 32768) 8 in
      if number ev =? 0 then [leftXAxis axis]
      else if number ev =? 1 then [leftYAxis axis]
      else if number ev =? 3 then [rightXAxis axis]
      else if number ev =? 4 then [rightYAxis axis]
      else if number ev =? 6 then [dPadXAxis axis]
      else if number ev =? 7 then [dPadYAxis axis]
      else []
    else [] in
  mret (tt, out1 ++ out2).

Definition read_ps4ds := decode_loop read_ps4ds_event tt.

(** ** read_dragon_rise *)

Definition BUTTON_MAP_LEFT : list button_code :=
  [ ns NSButton.LEFT_THROTTLE; ns NSButton.LEFT_TRIGGER; ns NSButton.MINUS;
    raw 255 (* DPAD Up *); raw 255 (* DPAD Right *);
    raw 255 (* DPAD Down *); raw 255 (* DPAD Left *);
    ns NSButton.LEFT_STICK;
    ns NSButton.CAPTURE; ns NSButton.CAPTURE; ns NSButton.CAPTURE;
    ns NSButton.CAPTURE ].

Definition BUTTON_MAP_RIGHT : list button_code :=
  [ ns NSButton.RIGHT_THROTTLE; ns NSButton.RIGHT_TRIGGER; ns NSButton.PLUS;
    ns NSButton.A; ns NSButton.B; ns NSButton.X; ns NSButton.Y;
    ns NSButton.RIGHT_STICK;
    ns NSButton.HOME; ns NSButton.HOME; ns NSButton.HOME; ns NSButton.HOME ].

(** The state is the local [dpad_bits].  The shift count [number - 3] is
    0..3 whenever the branch is taken: 255 sits at indices 3..6 only. *)
Definition read_dragon_rise_event (right_side : bool) (dpad_bits : Z)
    (ev : js_event) : result (Z * list call) :=
  '(dpad_bits', out1) ←
    (if type ev =? 1 then
       button_out ← getitem (if right_side then BUTTON_MAP_RIGHT
                             else BUTTON_MAP_LEFT) (number ev);
       if is_255 button_out then
         let dpad_bits' :=
           if value ev =? 0
           then Z.land dpad_bits (Z.lnot (Z.shiftl 1 (number ev - 3)))
           else Z.lor dpad_bits (Z.shiftl 1 (number ev - 3)) in
         d ← getitem BUTTONS_MAP_DPAD dpad_bits';
         mret (dpad_bits', [dPad d])
       else mret (dpad_bits, press_or_release (value ev) button_out)
     else mret (dpad_bits, []));
  let out2 :=
    if type ev =? 2 then
      let axis := Z.shiftr (value ev + 32768) 8 in
      if right_side then
        if number ev =? 0 then [rightXAxis axis]
        else if number ev =? 1 then [rightYAxis axis]
        else []
      else
        if number ev =? 0 then [leftXAxis axis]
        else if number ev =? 1 then [leftYAxis axis]
        else []
    else [] in
  mret (dpad_bits', out1 ++ out2).

Definition read_dragon_rise (right_side : bool) :=
  decode_loop (read_dragon_rise_event right_side) 0.

(** ** read_le3dp *)

Definition le3dp_BUTTON_MAP : list button_code :=
  [ ns NSButton.A; ns NSButton.B; ns NSButton.X; ns NSButton.Y;
    ns NSButton.LEFT_TRIGGER; ns NSButton.RIGHT_TRIGGER;
    ns NSButton.MINUS; ns NSButton.PLUS; ns NSButton.CAPTURE;
    ns NSButton.HOME; ns NSButton.LEFT_THROTTLE; ns NSButton.RIGHT_THROTTLE ].

(** The axis branch shared, word for word, by [read_le3dp] and [read_t16k]. *)
Definition flightstick_axes (ev : js_event) : list call :=
  if type ev =? 2 then
    let axis := Z.shiftr (value ev + 32768) 8 in
    if number ev =? 0 then [leftXAxis axis]
    else if number ev =? 1 then [leftYAxis axis]
    else if number ev =? 4 then [rightXAxis axis]
    else if number ev =? 5 then [rightYAxis axis]
    else []
  else [].

Definition read_le3dp_event (_ : unit) (ev : js_event)
  : result (unit * list call) :=
  out1 ← (if type ev =? 1 then mapped_button le3dp_BUTTON_MAP ev
          else mret []);
  mret (tt, out1 ++ flightstick_axes ev).

Definition read_le3dp := decode_loop read_le3dp_event tt.

(** ** read_t16k *)

Definition t16k_BUTTON_MAP : list button_code :=
  [ ns NSButton.A; ns NSButton.B; ns NSButton.X; ns NSButton.Y;
    ns NSButton.LEFT_TRIGGER; ns NSButton.RIGHT_TRIGGER;
    ns NSButton.MINUS; ns NSButton.PLUS; ns NSButton.CAPTURE;
    ns NSButton.HOME; ns NSButton.LEFT_STICK; ns NSButton.RIGHT_STICK;
    ns NSButton.LEFT_THROTTLE; ns NSButton.RIGHT_THROTTLE;
    raw 14; raw 15 ].

Definition read_t16k_event (_ : unit) (ev : js_event)
  : result (unit * list call) :=
  out1 ← (if type ev =? 1 then mapped_button t16k_BUTTON_MAP ev
          else mret []);
  mret (tt, out1 ++ flightstick_axes ev).

Definition read_t16k := decode_loop read_t16k_event tt.

(** ** The seven thread targets of [main], seen as one family *)

Inductive target :=
| horipad
| dragon_rise (right_side : bool)
| le3dp
| t16k
| xbox1
| ps4ds
| hori_wheel.

(** The locals a [read_*] function keeps across events. *)
Record locals := {
  wheel : wheel_locals;
  dpad_bits : Z
}.

Definition locals_start : locals :=
  {| wheel := wheel_start; dpad_bits := 0 |}.

Definition stateless (f : unit -> js_event -> result (unit * list call))
    (s : locals) (ev : js_event) : result (locals * list call) :=
  '(_, out) ← f tt ev; mret (s, out).

Definition on_event (t : target) (s : locals) (ev : js_event)
  : result (locals * list call) :=
  match t with
  | horipad => stateless read_horipad_event s ev
  | dragon_rise right_side =>
      '(d, out) ← read_dragon_rise_event right_side (dpad_bits s) ev;
      mret ({| wheel := wheel s; dpad_bits := d |}, out)
  | le3dp => stateless read_le3dp_event s ev
  | t16k => stateless read_t16k_event s ev
  | xbox1 => stateless read_xbox1_event s ev
  | ps4ds => stateless read_ps4ds_event s ev
  | hori_wheel =>
      '(w, out) ← read_hori_wheel_event (wheel s) ev;
      mret ({| wheel := w; dpad_bits := dpad_bits s |}, out)
  end.

Definition run (t : target) : list read_result -> status * locals * list call :=
  decode_loop (on_event t) locals_start.

(** The button table of a target; [read_horipad] has none. *)
Definition button_map (t : target) : option (list button_code) :=
  match t with
  | horipad => None
  | dragon_rise true => Some BUTTON_MAP_RIGHT
  | dragon_rise false => Some BUTTON_MAP_LEFT
  | le3dp => Some le3dp_BUTTON_MAP
  | t16k => Some t16k_BUTTON_MAP
  | xbox1 => Some xbox1_BUTTON_MAP
  | ps4ds => Some ps4ds_BUTTON_MAP
  | hori_wheel => Some hori_wheel_BUTTON_MAP
  end.

(** ** main: the hot-plug loop *)

(** A started [threading.Thread]: what it runs, on which open device, and
    a serial number standing for the identity of the Python object. *)
Record Thread := {
  thread_target : target;
  jsdev : string;
  ident : nat
}.

(** What one iteration of the [while True] of [main] sees of the host. *)
Record host := {
  listdir : list string;                (* os.listdir('/dev/input') *)
  open_ok : string -> bool;             (* false: open(jsname, 'rb') raises *)
  JSIOCGNAME : string -> option string; (* None: the ioctl raises *)
  ended : gset nat                      (* threads whose target has returned or raised *)
}.

Definition is_alive (h : host) (t : Thread) : bool :=
  bool_decide (ident t ∉ ended h).

Record registry := {
  dr_count : Z;
  joysticks : gmap string Thread;
  started : nat                         (* Thread objects created so far *)
}.

Definition main_start : registry :=
  {| dr_count := 0; joysticks := ∅; started := 0 |}.

(** Device names are taken to be ASCII text, as the names of the seven
    controllers are: on such a name [decode('utf-8')] returns and
    [str.upper] changes the letters a..z only. *)
Definition upper_ascii (c : ascii) : ascii :=
  let n := nat_of_ascii c in
  if ((97 <=? n) && (n <=? 122))%nat then ascii_of_nat (n - 32) else c.

Fixpoint upper (s : string) : string :=
  match s with
  | EmptyString => EmptyString
  | String c s' => String (upper_ascii c) (upper s')
  end.

(** [sub in s] *)
Fixpoint contains (sub s : string) : bool :=
  String.prefix sub s
  || match s with
     | EmptyString => false
     | String _ s' => contains sub s'
     end.

(** The first two loops of an iteration: collect the names whose thread is
    not alive, then delete them. *)
Definition joysticks_to_del (h : host) (js : gmap string Thread) : list string :=
  (filter (fun kv => is_alive h kv.2 = false) (map_to_list js)).*1.

Definition forget (h : host) (r : registry) : registry :=
  {| dr_count := dr_count r;
     joysticks := foldr delete (joysticks r) (joysticks_to_del h (joysticks r));
     started := started r |}.

(** [threading.Thread(target=..., args=(jsdev, ...)).start()] followed by
    [joysticks[jsname] = thr_id] *)
Definition start (t : target) (jsname : string) (r : registry) : registry :=
  {| dr_count := dr_count r;
     joysticks :=
       <[jsname := {| thread_target := t; jsdev := jsname; ident := started r |}]>
         (joysticks r);
     started := S (started r) |}.

(** The [if ... elif ... else] chain on the upper-cased device name. *)
Definition attach (jsname jslongname : string) (r : registry) : registry :=
  if contains "HORIPAD" jslongname then start horipad jsname r
  else if contains "DRAGONRISE INC." jslongname then
    let r' :=
      if negb (Z.land (dr_count r) 1 =? 0)
      then start (dragon_rise true) jsname r
      else start (dragon_rise false) jsname r in
    {| dr_count := dr_count r' + 1;
       joysticks := joysticks r';
       started := started r' |}
  else if contains "LOGITECH EXTREME 3D" jslongname then start le3dp jsname r
  else if contains "THRUSTMASTER T.16000M" jslongname then start t16k jsname r
  else if contains "MICROSOFT X-BOX ONE" jslongname then start xbox1 jsname r
  else if contains "SONY INTERACTIVE ENTERTAINMENT WIRELESS CONTROLLER" jslongname
  then start ps4ds jsname r
  else if contains "GENERIC X-BOX PAD" jslongname then start hori_wheel jsname r
  else r.

(** [jsname = '/dev/input/' + fn] *)
Definition jsname (fn : string) : string := ("/dev/input/" ++ fn)%string.

(** The seven signatures of the chain. *)
Definition signatures : list string :=
  [ "HORIPAD"; "DRAGONRISE INC."; "LOGITECH EXTREME 3D";
    "THRUSTMASTER T.16000M"; "MICROSOFT X-BOX ONE";
    "SONY INTERACTIVE ENTERTAINMENT WIRELESS CONTROLLER";
    "GENERIC X-BOX PAD" ]%string.

Definition known (jslongname : string) : bool :=
  existsb (fun sig => contains sig jslongname) signatures.

(** [for fn in os.listdir('/dev/input')].  A failing [open] runs [break];
    the [ioctl] is not inside the [try], so its failure leaves [main].
    The name it returns is ASCII text (see [upper_ascii]), so that
    [decode('utf-8')] returns. *)
Fixpoint scan (h : host) (fns : list string) (r : registry) : result registry :=
  match fns with
  | [] => Ok r
  | fn :: rest =>
      if String.prefix "js" fn then
        match joysticks r !! jsname fn with
        | Some _ => scan h rest r
        | None =>
            if open_ok h (jsname fn) then
              match JSIOCGNAME h (jsname fn) with
              | None => Raise OSError
              | Some name => scan h rest (attach (jsname fn) (upper name) r)
              end
            else Ok r
        end
      else scan h rest r
  end.

(** One iteration of [while True]. *)
Definition poll (h : host) (r : registry) : result registry :=
  scan h (listdir h) (forget h r).

(** The iterations of [main] over successive views of the host. *)
Fixpoint main_loop (hs : list host) (r : registry) : result registry :=
  match hs with
  | [] => Ok r
  | h :: hs' => r' ← poll h r; main_loop hs' r'
  end.

(** ** class DpadBits *)

(** How a call of the GPIO part ends: with a value, or with the
    ValueError of a negative shift count, or with the IndexError of a
    table lookup. *)
Inductive outcome (A : Type) : Type :=
| returns (a : A)
| raises_ValueError
| raises_IndexError.
Arguments returns {A} a.
Arguments raises_ValueError {A}.
Arguments raises_IndexError {A}.

(** [BUTTONS_MAP_DPAD[self.dpad_bits]] as the return value of a method. *)
Definition dpad_lookup (dpad_bits : Z) : outcome NSDPad.t :=
  match getitem BUTTONS_MAP_DPAD dpad_bits with
  | Ok d => returns d
  | Raise _ => raises_IndexError
  end.

(** [set_bit] and [clear_bit] take the attribute [self.dpad_bits] and give
    its new value with what the method returns.  The attribute is
    assigned before the table is read. *)
Definition set_bit (dpad_bits bit_num : Z) : Z * outcome NSDPad.t :=
  if bit_num <? 0 then (dpad_bits, raises_ValueError)
  else
    let dpad_bits' := Z.lor dpad_bits (Z.shiftl 1 bit_num) in
    (dpad_bits', dpad_lookup dpad_bits').

Definition clear_bit (dpad_bits bit_num : Z) : Z * outcome NSDPad.t :=
  if bit_num <? 0 then (dpad_bits, raises_ValueError)
  else
    let dpad_bits' := Z.land dpad_bits (Z.lnot (Z.shiftl 1 bit_num)) in
    (dpad_bits', dpad_lookup dpad_bits').

(** ** gpio_handler *)

(** [gpio_ns_map], as pairs of GPIO number and NS button. *)
Definition gpio_ns_map : list (Z * button_code) :=
  [ (4, ns NSButton.LEFT_THROTTLE);
    (17, ns NSButton.LEFT_TRIGGER);
    (27, ns NSButton.MINUS);
    (22, ns NSButton.CAPTURE);
    (5, raw 255);
    (6, raw 254);
    (13, raw 253);
    (19, raw 252);
    (26, ns NSButton.LEFT_STICK);
    (23, ns NSButton.RIGHT_THROTTLE);
    (24, ns NSButton.RIGHT_TRIGGER);
    (25, ns NSButton.PLUS);
    (8, ns NSButton.HOME);
    (7, ns NSButton.A);
    (12, ns NSButton.B);
    (16, ns NSButton.X);
    (20, ns NSButton.Y);
    (21, ns NSButton.RIGHT_STICK) ].

(** The dictionary [all_buttons] once the [for element in gpio_ns_map]
    loop has run.  A pin is identified with its GPIO number. *)
Definition all_buttons : gmap Z button_code :=
  foldl (fun m element => <[element.1 := element.2]> m) ∅ gpio_ns_map.

(** The two callbacks, on the pin of the button that fired.  The state is
    the [dpad_bits] object of [gpio_handler].  [ns_button < 128] holds of
    every NSButton value (the test is how the source tells them from the
    markers 252..255). *)
Definition gpio_pressed (dpad_bits pin : Z) : Z * outcome (list call) :=
  match all_buttons !! pin with
  | Some ns_button =>
      match ns_button with
      | ns _ => (dpad_bits, returns [press ns_button])
      | raw n =>
          if n <? 128 then (dpad_bits, returns [press ns_button])
          else
            match set_bit dpad_bits (255 - n) with
            | (dpad_bits', returns d) => (dpad_bits', returns [dPad d])
            | (dpad_bits', raises_ValueError) => (dpad_bits', raises_ValueError)
            | (dpad_bits', raises_IndexError) => (dpad_bits', raises_IndexError)
            end
      end
  | None => (dpad_bits, returns [])
  end.

Definition gpio_released (dpad_bits pin : Z) : Z * outcome (list call) :=
  match all_buttons !! pin with
  | Some ns_button =>
      match ns_button with
      | ns _ => (dpad_bits, returns [release ns_button])
      | raw n =>
          if n <? 128 then (dpad_bits, returns [release ns_button])
          else
            match clear_bit dpad_bits (255 - n) with
            | (dpad_bits', returns d) => (dpad_bits', returns [dPad d])
            | (dpad_bits', raises_ValueError) => (dpad_bits', raises_ValueError)
            | (dpad_bits', raises_IndexError) => (dpad_bits', raises_IndexError)
            end
      end
  | None => (dpad_bits, returns [])
  end.

(** An edge on a pin, as gpiozero reports it. *)
Inductive gpio_edge :=
| when_pressed (pin : Z)
| when_released (pin : Z).

Definition gpio_callback (dpad_bits : Z) (e : gpio_edge)
  : Z * outcome (list call) :=
  match e with
  | when_pressed pin => gpio_pressed dpad_bits pin
  | when_released pin => gpio_released dpad_bits pin
  end.

(** The callbacks of a sequence of edges, one after the other, up to the
    first that raises. *)
Fixpoint gpio_handler (dpad_bits : Z) (edges : list gpio_edge)
  : Z * outcome (list call) :=
  match edges with
  | [] => (dpad_bits, returns [])
  | e :: rest =>
      match gpio_callback dpad_bits e with
      | (dpad_bits', returns out) =>
          match gpio_handler dpad_bits' rest with
          | (dpad_bits'', returns out') => (dpad_bits'', returns (out ++ out'))
          | other => other
          end
      | (dpad_bits', raises_ValueError) => (dpad_bits', raises_ValueError)
      | (dpad_bits', raises_IndexError) => (dpad_bits', raises_IndexError)
      end
  end.

(** ** read_speech *)

(** A value of [COMMAND_DICT]: the keys 'buttons' and 'dpad' are both
    optional. *)
Record controls := {
  buttons : option (list NSButton.t);
  dpad : option NSDPad.t
}.

Definition COMMAND_DICT_items : list (string * controls) :=
  [ ("left and right"%string, {| buttons := Some [NSButton.LEFT_TRIGGER; NSButton.RIGHT_TRIGGER]; dpad := None |})
  ; ("left trigger"%string, {| buttons := Some [NSButton.LEFT_TRIGGER]; dpad := None |})
  ; ("left button"%string, {| buttons := Some [NSButton.LEFT_TRIGGER]; dpad := None |})
  ; ("right trigger"%string, {| buttons := Some [NSButton.RIGHT_TRIGGER]; dpad := None |})
  ; ("right button"%string, {| buttons := Some [NSButton.RIGHT_TRIGGER]; dpad := None |})
  ; ("left throttle"%string, {| buttons := Some [NSButton.LEFT_THROTTLE]; dpad := None |})
  ; ("right throttle"%string, {| buttons := Some [NSButton.RIGHT_THROTTLE]; dpad := None |})
  ; ("plus"%string, {| buttons := Some [NSButton.PLUS]; dpad := None |})
  ; ("options"%string, {| buttons := Some [NSButton.PLUS]; dpad := None |})
  ; ("minus"%string, {| buttons := Some [NSButton.MINUS]; dpad := None |})
  ; ("capture"%string, {| buttons := Some [NSButton.CAPTURE]; dpad := None |})
  ; ("go home"%string, {| buttons := Some [NSButton.HOME]; dpad := None |})
  ; ("home"%string, {| buttons := Some [NSButton.HOME]; dpad := None |})
  ; ("okay"%string, {| buttons := Some [NSButton.A]; dpad := None |})
  ; ("continue"%string, {| buttons := Some [NSButton.A]; dpad := None |})
  ; ("confirm"%string, {| buttons := Some [NSButton.A]; dpad := None |})
  ; ("start"%string, {| buttons := Some [NSButton.A]; dpad := None |})
  ; ("back"%string, {| buttons := Some [NSButton.B]; dpad := None |})
  ; ("go back"%string, {| buttons := Some [NSButton.B]; dpad := None |})
  ; ("baker"%string, {| buttons := Some [NSButton.B]; dpad := None |})
  ; ("cancel"%string, {| buttons := Some [NSButton.X]; dpad := None |})
  ; ("close"%string, {| buttons := Some [NSButton.X]; dpad := None |})
  ; ("direction up"%string, {| buttons := None; dpad := Some NSDPad.UP |})
  ; ("direction down"%string, {| buttons := None; dpad := Some NSDPad.DOWN |})
  ; ("direction left"%string, {| buttons := None; dpad := Some NSDPad.LEFT |})
  ; ("direction right"%string, {| buttons := None; dpad := Some NSDPad.RIGHT |})
  ; ("move up"%string, {| buttons := None; dpad := Some NSDPad.UP |})
  ; ("move down"%string, {| buttons := None; dpad := Some NSDPad.DOWN |})
  ; ("move left"%string, {| buttons := None; dpad := Some NSDPad.LEFT |})
  ; ("move right"%string, {| buttons := None; dpad := Some NSDPad.RIGHT |})
  ; ("launch ball"%string, {| buttons := Some [NSButton.A]; dpad := None |})
  ; ("jump"%string, {| buttons := Some [NSButton.X]; dpad := None |})
  ; ("climb"%string, {| buttons := Some [NSButton.X]; dpad := None |})
  ; ("attack"%string, {| buttons := Some [NSButton.Y]; dpad := None |})
  ; ("fight"%string, {| buttons := Some [NSButton.Y]; dpad := None |})
  ; ("take"%string, {| buttons := Some [NSButton.A]; dpad := None |})
  ; ("crouch"%string, {| buttons := Some [NSButton.LEFT_STICK]; dpad := None |})
  ; ("crunch"%string, {| buttons := Some [NSButton.LEFT_STICK]; dpad := None |})
  ; ("zoom"%string, {| buttons := Some [NSButton.RIGHT_STICK]; dpad := None |})
  ; ("long distance"%string, {| buttons := Some [NSButton.RIGHT_STICK]; dpad := None |})
  ; ("look far"%string, {| buttons := Some [NSButton.RIGHT_STICK]; dpad := None |})
  ; ("use rune"%string, {| buttons := Some [NSButton.LEFT_TRIGGER]; dpad := None |})
  ; ("use spell"%string, {| buttons := Some [NSButton.LEFT_TRIGGER]; dpad := None |})
  ; ("use magic"%string, {| buttons := Some [NSButton.LEFT_TRIGGER]; dpad := None |})
  ; ("throw"%string, {| buttons := Some [NSButton.RIGHT_TRIGGER]; dpad := None |})
  ; ("switch shield"%string, {| buttons := Some [NSButton.RIGHT_TRIGGER]; dpad := Some NSDPad.LEFT |})
  ; ("switch weapon"%string, {| buttons := Some [NSButton.RIGHT_TRIGGER]; dpad := Some NSDPad.RIGHT |})
  ; ("switch magic"%string, {| buttons := Some [NSButton.RIGHT_TRIGGER]; dpad := Some NSDPad.UP |})
  ; ("which shield"%string, {| buttons := Some [NSButton.RIGHT_TRIGGER]; dpad := Some NSDPad.LEFT |})
  ; ("which weapon"%string, {| buttons := Some [NSButton.RIGHT_TRIGGER]; dpad := Some NSDPad.RIGHT |})
  ; ("which magic"%string, {| buttons := Some [NSButton.RIGHT_TRIGGER]; dpad := Some NSDPad.UP |})
  ; ("change shield"%string, {| buttons := Some [NSButton.RIGHT_TRIGGER]; dpad := Some NSDPad.LEFT |})
  ; ("change weapon"%string, {| buttons := Some [NSButton.RIGHT_TRIGGER]; dpad := Some NSDPad.RIGHT |})
  ; ("change magic"%string, {| buttons := Some [NSButton.RIGHT_TRIGGER]; dpad := Some NSDPad.UP |})
  ; ("throw"%string, {| buttons := Some [NSButton.RIGHT_TRIGGER]; dpad := None |})
  ; ("center camera"%string, {| buttons := Some [NSButton.LEFT_THROTTLE]; dpad := None |})
  ; ("enter camera"%string, {| buttons := Some [NSButton.LEFT_THROTTLE]; dpad := None |})
  ; ("centre camera"%string, {| buttons := Some [NSButton.LEFT_THROTTLE]; dpad := None |})
  ; ("camera"%string, {| buttons := Some [NSButton.LEFT_THROTTLE]; dpad := None |})
  ; ("lock on"%string, {| buttons := Some [NSButton.LEFT_THROTTLE]; dpad := None |})
  ; ("raise shield"%string, {| buttons := Some [NSButton.LEFT_THROTTLE]; dpad := None |})
  ; ("parry"%string, {| buttons := Some [NSButton.LEFT_THROTTLE; NSButton.A]; dpad := None |})
  ; ("perry"%string, {| buttons := Some [NSButton.LEFT_THROTTLE; NSButton.A]; dpad := None |})
  ; ("block"%string, {| buttons := Some [NSButton.LEFT_THROTTLE; NSButton.A]; dpad := None |})
  ; ("back flip"%string, {| buttons := Some [NSButton.LEFT_THROTTLE; NSButton.X; NSButton.LEFT_TRIGGER]; dpad := None |})
  ; ("shield surf"%string, {| buttons := Some [NSButton.LEFT_THROTTLE; NSButton.X; NSButton.A]; dpad := None |})
  ; ("use bow"%string, {| buttons := Some [NSButton.RIGHT_THROTTLE]; dpad := None |})
  ; ("whistle"%string, {| buttons := None; dpad := Some NSDPad.DOWN |})
  ; ("call horse"%string, {| buttons := None; dpad := Some NSDPad.DOWN |})
  ; ("called horse"%string, {| buttons := None; dpad := Some NSDPad.DOWN |})
  ; ("all horse"%string, {| buttons := None; dpad := Some NSDPad.DOWN |})
  ; ("horse"%string, {| buttons := None; dpad := Some NSDPad.DOWN |})
  ; ("a horse"%string, {| buttons := None; dpad := Some NSDPad.DOWN |})
  ; ("get horse"%string, {| buttons := None; dpad := Some NSDPad.DOWN |})
  ; ("get a horse"%string, {| buttons := None; dpad := Some NSDPad.DOWN |})
  ; ("open slate"%string, {| buttons := Some [NSButton.MINUS]; dpad := None |})
  ; ("pause"%string, {| buttons := Some [NSButton.PLUS]; dpad := None |}) ].

(** The dictionary display is evaluated left to right; a key given twice
    ('throw') keeps its last value. *)
Definition COMMAND_DICT : gmap string controls :=
  foldl (fun m item => <[item.1 := item.2]> m) ∅ COMMAND_DICT_items.

(** A line of standard input is modelled by its characters as code points
    below 256, one [ascii] each.  [str.isspace] holds there of the
    controls 9..13 and 28..31, the space, NEXT LINE (133) and NO-BREAK
    SPACE (160). *)
Definition isspace (c : ascii) : bool :=
  let n := nat_of_ascii c in
  (((9 <=? n) && (n <=? 13)) || ((28 <=? n) && (n <=? 32))
   || (n =? 133) || (n =? 160))%nat.

(** [line.rstrip()] *)
Fixpoint rstrip (s : string) : string :=
  match s with
  | EmptyString => EmptyString
  | String c s' =>
      match rstrip s' with
      | EmptyString => if isspace c then EmptyString else String c EmptyString
      | kept => String c kept
      end
  end.

(** What is done for a recognised command: press the buttons in order,
    set the direction pad, [time.sleep(0.075)], centre the direction pad,
    release the buttons in reverse order.  The prints are left out. *)
Definition do_controls (controls : controls) : list call :=
  match buttons controls with
  | Some btns => map (fun btn => press (ns btn)) btns
  | None => []
  end
  ++ match dpad controls with
     | Some d => [dPad d]
     | None => []
     end
  ++ match dpad controls with
     | Some _ => [dPad NSDPad.CENTERED]
     | None => []
     end
  ++ match buttons controls with
     | Some btns => map (fun btn => release (ns btn)) (rev btns)
     | None => []
     end.

(** The body of [for line in sys.stdin]. *)
Definition speech_command (line : string) : list call :=
  let command := rstrip line in
  match COMMAND_DICT !! command with
  | Some controls => do_controls controls
  | None => []
  end.

Definition read_speech (stdin : list string) : list call :=
  flat_map speech_command stdin.

(** * Vocabulary of the statements *)

(** ** Direction pad and quantizer, in the words of the specification *)

(** The reference table of the specification, as a function of the four
    button bits in the order Left, Down, Right, Up. *)
Definition reference_dpad (l d r u : bool) : NSDPad.t :=
  match l, d, r, u with
  | false, false, false, false => NSDPad.CENTERED
  | false, false, false, true  => NSDPad.UP
  | false, false, true,  false => NSDPad.RIGHT
  | false, false, true,  true  => NSDPad.UP_RIGHT
  | false, true,  false, false => NSDPad.DOWN
  | false, true,  false, true  => NSDPad.CENTERED
  | false, true,  true,  false => NSDPad.DOWN_RIGHT
  | false, true,  true,  true  => NSDPad.CENTERED
  | true,  false, false, false => NSDPad.LEFT
  | true,  false, false, true  => NSDPad.UP_LEFT
  | true,  false, true,  false => NSDPad.CENTERED
  | true,  false, true,  true  => NSDPad.CENTERED
  | true,  true,  false, false => NSDPad.DOWN_LEFT
  | true,  true,  false, true  => NSDPad.CENTERED
  | true,  true,  true,  false => NSDPad.CENTERED
  | true,  true,  true,  true  => NSDPad.CENTERED
  end.

(** The four bits of a mask written LDRU. *)
Definition left_bit (m : Z) : bool := Z.testbit m 3.
Definition down_bit (m : Z) : bool := Z.testbit m 2.
Definition right_bit (m : Z) : bool := Z.testbit m 1.
Definition up_bit (m : Z) : bool := Z.testbit m 0.

(** The quantizer as the specification writes it. *)
Definition quantize (raw : Z) : Z := Z.shiftr (raw + 32768) 8.

(** ** Events and what the specification asks on unmapped buttons *)

(** A button event and an axis event with the given number and value. *)
Definition button_event (index v : Z) : js_event :=
  {| timestamp := 0; value := v; type := 1; number := index |}.

Definition axis_event (index v : Z) : js_event :=
  {| timestamp := 0; value := v; type := 2; number := index |}.

(** What the specification asks of a decoder on such an event: the step
    completes and makes no press or release call. *)
Definition ignores (t : target) (s : locals) (ev : js_event) : Prop :=
  exists s' out,
    on_event t s ev = Ok (s', out)
    /\ forall c, c ∈ out -> is_press_or_release c = false.

(** A button event whose number is past the end of the target's table. *)
Definition beyond_map (t : target) (ev : js_event) : Prop :=
  type ev = 1
  /\ forall m, button_map t = Some m -> Z.of_nat (length m) <= number ev.

(** The 8 bytes of "button 11 pressed" and of "button 0 pressed". *)
Definition button_11_pressed : list byte :=
  [x00; x00; x00; x00; x01; x00; x01; x0b]%byte.
Definition button_0_pressed : list byte :=
  [x00; x00; x00; x00; x01; x00; x01; x00]%byte.

(** ** Hosts seen by the hot-plug loop *)

(** [fn] is a joystick file that opens and whose name selects the Dragon
    Rise branch of the chain. *)
Definition is_dragon_rise (h : host) (fn : string) : Prop :=
  String.prefix "js" fn = true
  /\ open_ok h (jsname fn) = true
  /\ exists name,
       JSIOCGNAME h (jsname fn) = Some name
       /\ contains "HORIPAD" (upper name) = false
       /\ contains "DRAGONRISE INC." (upper name) = true.

(** Two arcade sticks plugged in when [main] starts. *)
Definition two_sticks : host :=
  {| listdir := ["js0"; "js1"]%string;
     open_ok := fun _ => true;
     JSIOCGNAME := fun _ => Some "DragonRise Inc.   Generic   USB  Joystick  "%string;
     ended := ∅ |}.

(** The first of them alone, before the second is plugged in. *)
Definition one_stick : host :=
  {| listdir := ["js0"]%string;
     open_ok := open_ok two_sticks;
     JSIOCGNAME := JSIOCGNAME two_sticks;
     ended := ∅ |}.

(** js0 cannot be opened; js1 is a healthy HoriPad. *)
Definition js0_unreadable : host :=
  {| listdir := ["js0"; "js1"]%string;
     open_ok := fun p => negb (String.eqb p "/dev/input/js0");
     JSIOCGNAME := fun _ => Some "HORI CO.,LTD. HORIPAD S"%string;
     ended := ∅ |}.

(** js0 opens but does not answer the name query; js1 is a healthy HoriPad. *)
Definition js0_nameless : host :=
  {| listdir := ["js0"; "js1"]%string;
     open_ok := fun _ => true;
     JSIOCGNAME := fun p => if String.eqb p "/dev/input/js0" then None
                            else Some "HORI CO.,LTD. HORIPAD S"%string;
     ended := ∅ |}.

(** The healthy HoriPad alone. *)
Definition js1_alone : host :=
  {| listdir := ["js1"]%string;
     open_ok := open_ok js0_unreadable;
     JSIOCGNAME := JSIOCGNAME js0_unreadable;
     ended := ∅ |}.



(** A HoriPad attached on js0 by an earlier iteration, as thread 0. *)
Definition horipad_attached : registry :=
  start horipad (jsname "js0") main_start.

(** Thread 0 has ended; the HoriPad is (again) listed as js0. *)
Definition horipad_replugged : host :=
  {| listdir := ["js0"]%string;
     open_ok := fun _ => true;
     JSIOCGNAME := fun _ => Some "HORI CO.,LTD. HORIPAD S"%string;
     ended := {[ 0%nat ]} |}.

(** ** Well-formed input of a decoder *)

(** A button event of [ev] stays inside the button table of [t]. *)
Definition in_table (t : target) (ev : js_event) : Prop :=
  type ev = 1 ->
  forall m, button_map t = Some m -> 0 <= number ev < Z.of_nat (length m).

(** A read that fails, returns nothing, or returns a record whose button
    number is inside the table. *)
Definition mapped_read (t : target) (r : read_result) : Prop :=
  match r with
  | read_raises => True
  | read_returns evbuf =>
      evbuf = [] \/ exists ev, unpack_IhBB evbuf = Ok ev /\ in_table t ev
  end.

Definition is_dPad (c : call) : bool :=
  match c with dPad _ => true | _ => false end.

(** The direction of a mask, read off the reference table. *)
Definition direction_of (m : Z) : NSDPad.t :=
  reference_dpad (left_bit m) (down_bit m) (right_bit m) (up_bit m).

(** Bit [k] of [m'] is [b] and the other three low bits are those of [m]. *)
Definition bit_replaced (m m' k : Z) (b : bool) : Prop :=
  up_bit m' = (if k =? 0 then b else up_bit m)
  /\ right_bit m' = (if k =? 1 then b else right_bit m)
  /\ down_bit m' = (if k =? 2 then b else down_bit m)
  /\ left_bit m' = (if k =? 3 then b else left_bit m).

(** Every record among [reads] that unpacks gives an event satisfying [Q]. *)
Definition records_satisfy (Q : js_event -> Prop) (reads : list read_result)
  : Prop :=
  Forall (fun r => forall evbuf ev,
              r = read_returns evbuf -> unpack_IhBB evbuf = Ok ev -> Q ev)
         reads.

(** The cache [read_hori_wheel] keeps for throttle axis 2 or 5. *)
Definition throttle_cache (axis_number : Z) (s : wheel_locals) : Z :=
  if axis_number =? 2 then last_left_throttle s else last_right_throttle s.

(** ** The direction pins held *)

(** Whether the last edge seen on [pin] was a press; [before] tells it
    when no edge on [pin] has been seen. *)
Definition held (pin : Z) (before : bool) (edges : list gpio_edge) : bool :=
  foldl (fun h e =>
           match e with
           | when_pressed p => if p =? pin then true else h
           | when_released p => if p =? pin then false else h
           end) before edges.

(** The bit of [dpad_bits] that a direction pin drives: GPIO 5, 6, 13 and
    19 carry the markers 255, 254, 253 and 252. *)
Definition direction_pin (pin : Z) : option Z :=
  if pin =? 5 then Some 0
  else if pin =? 6 then Some 1
  else if pin =? 13 then Some 2
  else if pin =? 19 then Some 3
  else None.

Definition edge_pin (e : gpio_edge) : Z :=
  match e with when_pressed pin | when_released pin => pin end.

Definition edge_is_press (e : gpio_edge) : bool :=
  match e with when_pressed _ => true | when_released _ => false end.

(** ** Reading the calls of the speech thread *)

Definition pressed_button (c : call) : option button_code :=
  match c with press b => Some b | _ => None end.

Definition released_button (c : call) : option button_code :=
  match c with release b => Some b | _ => None end.

Definition dpad_direction (c : call) : option NSDPad.t :=
  match c with dPad d => Some d | _ => None end.

(** A string of white space only. *)
Fixpoint all_space (w : string) : bool :=
  match w with
  | EmptyString => true
  | String c w' => isspace c && all_space w'
  end.

(** ** Registries that [main] can reach *)

(** Every tracked thread was started on the file it is tracked under, a
    joystick file; no thread is tracked twice; [dr_count] has counted
    started threads only. *)
Definition well_formed (r : registry) : Prop :=
  (forall k t, joysticks r !! k = Some t ->
     jsdev t = k /\ (ident t < started r)%nat
     /\ exists fn, k = jsname fn /\ String.prefix "js" fn = true)
  /\ (forall k1 k2 t1 t2,
        joysticks r !! k1 = Some t1 -> joysticks r !! k2 = Some t2 ->
        ident t1 = ident t2 -> k1 = k2)
  /\ 0 <= dr_count r <= Z.of_nat (started r).

(** A listed file that an iteration passes over without starting a
    thread: not a joystick file, or tracked already, or a joystick whose
    name matches no signature. *)
Definition nothing_new (h : host) (r : registry) (fn : string) : Prop :=
  String.prefix "js" fn = false
  \/ is_Some (joysticks r !! jsname fn)
  \/ (open_ok h (jsname fn) = true
      /\ exists name, JSIOCGNAME h (jsname fn) = Some name
                      /\ known (upper name) = false).

(** Two arcade sticks were attached, js0 on the left and js1 on the
    right, and the thread of js1 has been forgotten since. *)
Definition right_stick_forgotten : registry :=
  {| dr_count := 2;
     joysticks :=
       {[ jsname "js0" := {| thread_target := dragon_rise false;
                             jsdev := jsname "js0"; ident := 0 |} ]};
     started := 2 |}.

(** ** The axes of each decoder *)

(** The sink method to which a decoder hands the value of an axis as it
    is, by axis number (the branches of the source that call an axis
    method without a test). *)
Definition passes_through (t : target) (n : Z) : option (Z -> call) :=
  match t with
  | horipad =>
      if n =? 0 then Some leftXAxis else if n =? 1 then Some leftYAxis
      else if n =? 2 then Some rightXAxis else if n =? 3 then Some rightYAxis
      else if n =? 4 then Some dPadXAxis else if n =? 5 then Some dPadYAxis
      else None
  | hori_wheel =>
      if n =? 1 then Some leftYAxis
      else if n =? 3 then Some rightXAxis else if n =? 4 then Some rightYAxis
      else if n =? 6 then Some dPadXAxis else if n =? 7 then Some dPadYAxis
      else None
  | xbox1 | ps4ds =>
      if n =? 0 then Some leftXAxis else if n =? 1 then Some leftYAxis
      else if n =? 3 then Some rightXAxis else if n =? 4 then Some rightYAxis
      else if n =? 6 then Some dPadXAxis else if n =? 7 then Some dPadYAxis
      else None
  | dragon_rise true =>
      if n =? 0 then Some rightXAxis else if n =? 1 then Some rightYAxis
      else None
  | dragon_rise false =>
      if n =? 0 then Some leftXAxis else if n =? 1 then Some leftYAxis
      else None
  | le3dp | t16k =>
      if n =? 0 then Some leftXAxis else if n =? 1 then Some leftYAxis
      else if n =? 4 then Some rightXAxis else if n =? 5 then Some rightYAxis
      else None
  end.

(** The button driven by throttle axis 2 or 5. *)
Definition throttle_button (n : Z) : button_code :=
  if n =? 2 then ns NSButton.LEFT_THROTTLE else ns NSButton.RIGHT_THROTTLE.

(** The locals of [read_hori_wheel] once the cache of throttle axis 2 or 5
    holds [q]. *)
Definition cache_throttle (n q : Z) (w : wheel_locals) : wheel_locals :=
  if n =? 2
  then {| last_left_throttle := q;
          last_right_throttle := last_right_throttle w;
          last_wheel := last_wheel w |}
  else {| last_left_throttle := last_left_throttle w;
          last_right_throttle := q;
          last_wheel := last_wheel w |}.

(** ** The arcade sticks an iteration discovers *)










(** * Properties *)

(** ** The direction pad table *)

Lemma four_bit_cases (m : Z) :
  0 <= m < 16 -> exists n : nat, (n < 16)%nat /\ m = Z.of_nat n.
Proof. intros Hm. exists (Z.to_nat m). lia. Qed.

(** C2. On each of the 16 masks the table lookup succeeds and returns the
    direction of the reference table (bit order Left, Down, Right, Up);
    a mask with both Left and Right, or both Up and Down, gives Centered
    whatever the other two bits are. *)
Theorem dpad_table_matches_reference (m : Z) (Hm : 0 <= m < 16) :
  getitem BUTTONS_MAP_DPAD m
    = Ok (reference_dpad (left_bit m) (down_bit m) (right_bit m) (up_bit m))
  /\ (left_bit m = true -> right_bit m = true ->
      getitem BUTTONS_MAP_DPAD m = Ok NSDPad.CENTERED)
  /\ (up_bit m = true -> down_bit m = true ->
      getitem BUTTONS_MAP_DPAD m = Ok NSDPad.CENTERED).
Proof.
  destruct (four_bit_cases m Hm) as (n & Hn & ->).
  do 16 (destruct n as [| n]; [vm_compute; repeat split; congruence |]).
  lia.
Qed.

Lemma dpad_table_matches_reference_witness :
  0 <= 11 < 16
  /\ getitem BUTTONS_MAP_DPAD 11 = Ok NSDPad.CENTERED.
Proof.
  split; [lia |].
  apply (proj1 (proj2 (dpad_table_matches_reference 11 ltac:(lia))));
    reflexivity.
Defined.

(** ** The axis quantizer *)

Lemma quantize_div (raw : Z) : quantize raw = (raw + 32768) / 256.
Proof. unfold quantize. rewrite Z.shiftr_div_pow2 by lia. reflexivity. Qed.

Lemma quantize_range (raw : Z) :
  -32768 <= raw <= 32767 -> 0 <= quantize raw <= 255.
Proof.
  intros Hr. rewrite quantize_div. split.
  - apply Z.div_pos; lia.
  - apply Z.lt_succ_r. apply Z.div_lt_upper_bound; lia.
Qed.

(** Unfold one decoder step down to its tests on the event fields. *)
Ltac unfold_step :=
  unfold on_event, stateless, read_horipad_event, read_hori_wheel_event,
    read_xbox1_event, read_ps4ds_event, read_dragon_rise_event,
    read_le3dp_event, read_t16k_event, flightstick_axes, mapped_button,
    press_or_release, quantize, mbind, result_bind, mret, result_ret in *.

Ltac split_tests :=
  repeat match goal with
         | |- context [if ?b then _ else _] => destruct b eqn:?
         end.

Lemma axis_event_calls (t : target) (s s' : locals) (ev : js_event)
    (out : list call) (c : call) (v : Z) :
  type ev = 2 -> on_event t s ev = Ok (s', out) -> c ∈ out ->
  axis_value c = Some v -> v = quantize (value ev).
Proof.
  intros Hty Hstep Hc Hv. revert Hstep.
  destruct t; unfold_step; rewrite Hty; cbn;
    split_tests; cbn; intros Hstep; simplify_eq;
    repeat match goal with
           | H : _ ∈ [] |- _ => inversion H
           | H : _ ∈ _ :: _ |- _ => apply elem_of_cons in H; destruct H
           end; simplify_eq; cbn in *; congruence.
Qed.

Lemma axis_event_factors (t : target) (s : locals) (ev1 ev2 : js_event) :
  type ev1 = 2 -> type ev2 = 2 -> number ev1 = number ev2 ->
  quantize (value ev1) = quantize (value ev2) ->
  on_event t s ev1 = on_event t s ev2.
Proof.
  intros Hty1 Hty2 Hn Hq.
  destruct t; unfold_step; rewrite Hty1, Hty2, Hn, Hq; reflexivity.
Qed.

(** An axis that a decoder passes through reaches the sink quantized. *)
Lemma axis_passes_through (t : target) (s : locals) (ev : js_event)
    (m : Z -> call) :
  type ev = 2 -> passes_through t (number ev) = Some m ->
  on_event t s ev = Ok (s, [m (Z.shiftr (value ev + 32768) 8)]).
Proof.
  intros Hty Hm. destruct s as [w d].
  destruct t as [| [|] | | | | |]; cbn [passes_through] in Hm;
    repeat match type of Hm with
           | context [if ?b then _ else _] => destruct b eqn:?
           end; simplify_eq;
    match goal with
    | H : (number ev =? _) = true |- _ => apply Z.eqb_eq in H; rename H into Hn
    end;
    unfold_step; rewrite Hty, Hn; reflexivity.
Qed.

Lemma xbox1_throttle_axis (s : locals) (ev : js_event) :
  type ev = 2 -> number ev = 2 \/ number ev = 5 ->
  on_event xbox1 s ev
  = Ok (s, [if Z.shiftr (value ev + 32768) 8 >? 128
            then press (throttle_button (number ev))
            else release (throttle_button (number ev))]).
Proof.
  intros Hty [Hn | Hn]; unfold_step; rewrite Hty, Hn; cbn;
    by destruct (_ >? 128).
Qed.

Lemma wheel_throttle_axis (s : locals) (ev : js_event) :
  type ev = 2 -> number ev = 2 \/ number ev = 5 ->
  on_event hori_wheel s ev
  = Ok (if throttle_cache (number ev) (wheel s)
           =? Z.shiftr (value ev + 32768) 8
        then (s, [])
        else ({| wheel := cache_throttle (number ev)
                            (Z.shiftr (value ev + 32768) 8) (wheel s);
                 dpad_bits := dpad_bits s |},
              [if Z.shiftr (value ev + 32768) 8 >? 64
               then press (throttle_button (number ev))
               else release (throttle_button (number ev))])).
Proof.
  intros Hty Hn. destruct s as [w d].
  unfold on_event, read_hori_wheel_event, throttle_cache, cache_throttle,
    throttle_button. unfold mbind, result_bind, mret, result_ret.
  rewrite Hty. change (2 =? 1) with false. change (2 =? 2) with true.
  cbv iota. cbn [wheel dpad_bits].
  destruct Hn as [-> | ->].
  - change (2 =? 0) with false. change (2 =? 1) with false.
    change (2 =? 2) with true. cbv iota.
    destruct (last_left_throttle w =? (value ev + 32768) ≫ 8); cbn [negb];
      cbv iota; [by destruct w |].
    by destruct (_ >? 64).
  - change (5 =? 0) with false. change (5 =? 1) with false.
    change (5 =? 2) with false. change (5 =? 3) with false.
    change (5 =? 4) with false. change (5 =? 5) with true. cbv iota.
    destruct (last_right_throttle w =? (value ev + 32768) ≫ 8); cbn [negb];
      cbv iota; [by destruct w |].
    by destruct (_ >? 64).
Qed.

Lemma wheel_steering_axis (s : locals) (ev : js_event) :
  type ev = 2 -> number ev = 0 ->
  on_event hori_wheel s ev
  = Ok (s, if last_wheel (wheel s) =? Z.shiftr (value ev + 32768) 8
           then [] else [leftXAxis (Z.shiftr (value ev + 32768) 8)]).
Proof.
  intros Hty Hn. destruct s as [w d].
  unfold on_event, read_hori_wheel_event.
  unfold mbind, result_bind, mret, result_ret.
  rewrite Hty, Hn. change (2 =? 1) with false. change (2 =? 2) with true.
  change (0 =? 0) with true. cbv iota. cbn [wheel dpad_bits].
  destruct (last_wheel w =? (value ev + 32768) ≫ 8); destruct w; reflexivity.
Qed.

(** C3. Every decoder quantizes an axis sample with
    [(raw + 32768) >> 8] and uses that value wherever it uses the axis.
    An axis the decoder passes through (every decoder has at least
    axis 1) makes the one call of its sink method with the quantized
    value.  The throttle axes 2 and 5 of the Xbox One decoder compare the
    quantized value with 128, those of the racing wheel compare it with
    their cache and with 64, and the steering axis of the racing wheel
    compares it with its cache and passes it on.  An axis event acts on
    the sink through that value only, and any axis value handed to the
    sink is that value.  On a signed 16-bit sample the result is the
    floor of [(raw + 32768) / 256], lies in 0..255, and the four boundary
    samples give 0, 127, 128 and 255. *)
Theorem axis_quantizer_exact (raw : Z) (Hraw : -32768 <= raw <= 32767) :
  (forall t s ev m,
      type ev = 2 -> value ev = raw ->
      passes_through t (number ev) = Some m ->
      on_event t s ev = Ok (s, [m (Z.shiftr (raw + 32768) 8)]))
  /\ (forall t, exists m, passes_through t 1 = Some m)
  /\ (forall s ev,
      type ev = 2 -> value ev = raw -> number ev = 2 \/ number ev = 5 ->
      on_event xbox1 s ev
      = Ok (s, [if Z.shiftr (raw + 32768) 8 >? 128
                then press (throttle_button (number ev))
                else release (throttle_button (number ev))]))
  /\ (forall s ev,
      type ev = 2 -> value ev = raw -> number ev = 2 \/ number ev = 5 ->
      on_event hori_wheel s ev
      = Ok (if throttle_cache (number ev) (wheel s)
               =? Z.shiftr (raw + 32768) 8
            then (s, [])
            else ({| wheel := cache_throttle (number ev)
                                (Z.shiftr (raw + 32768) 8) (wheel s);
                     dpad_bits := dpad_bits s |},
                  [if Z.shiftr (raw + 32768) 8 >? 64
                   then press (throttle_button (number ev))
                   else release (throttle_button (number ev))])))
  /\ (forall s ev,
      type ev = 2 -> value ev = raw -> number ev = 0 ->
      on_event hori_wheel s ev
      = Ok (s, if last_wheel (wheel s) =? Z.shiftr (raw + 32768) 8
               then [] else [leftXAxis (Z.shiftr (raw + 32768) 8)]))
  /\ (forall t s ev s' out c v,
      type ev = 2 -> value ev = raw -> on_event t s ev = Ok (s', out) ->
      c ∈ out -> axis_value c = Some v -> v = Z.shiftr (raw + 32768) 8)
  /\ (forall t s ev ev',
      type ev = 2 -> type ev' = 2 -> number ev = number ev' ->
      value ev = raw -> quantize (value ev') = quantize raw ->
      on_event t s ev' = on_event t s ev)
  /\ quantize raw = (raw + 32768) / 256
  /\ 0 <= quantize raw <= 255
  /\ quantize (-32768) = 0
  /\ quantize (-1) = 127
  /\ quantize 0 = 128
  /\ quantize 32767 = 255.
Proof.
  split; [| split; [| split; [| split; [| split;
    [| split; [| split; [| split; [| split]]]]]]]].
  - intros t s ev m Hty <- Hm. by apply axis_passes_through.
  - intros [| [|] | | | | |]; eexists; reflexivity.
  - intros s ev Hty <- Hn. by apply xbox1_throttle_axis.
  - intros s ev Hty <- Hn. by apply wheel_throttle_axis.
  - intros s ev Hty <- Hn. by apply wheel_steering_axis.
  - intros t s ev s' out c v Hty <- Hstep Hc Hv.
    apply (axis_event_calls t s s' ev out c v); assumption.
  - intros t s ev ev' Hty Hty' Hn <- Hq.
    apply axis_event_factors; congruence.
  - apply quantize_div.
  - apply quantize_range, Hraw.
  - repeat split; reflexivity.
Qed.

Lemma axis_quantizer_exact_witness :
  -32768 <= 200 <= 32767
  /\ on_event ps4ds locals_start (axis_event 3 200)
     = Ok (locals_start, [rightXAxis 128])
  /\ 0 <= quantize 200 <= 255.
Proof.
  split; [lia |]. split.
  - apply (proj1 (axis_quantizer_exact 200 ltac:(lia)) ps4ds locals_start
             (axis_event 3 200) rightXAxis); reflexivity.
  - apply (axis_quantizer_exact 200); lia.
Defined.

(** ** The Xbox One scenario *)

(** C4. In [read_xbox1], button 6 pressed gives press(MINUS) and released
    gives release(MINUS); axis 2 at 200 quantizes to 128, which is not
    above 128, so no press is made (the call is release(LEFT_THROTTLE));
    axis 2 at 20000 quantizes to 206 and gives press(LEFT_THROTTLE). *)
Theorem xbox1_scenario :
  read_xbox1_event tt (button_event 6 1) = Ok (tt, [press (ns NSButton.MINUS)])
  /\ read_xbox1_event tt (button_event 6 0) = Ok (tt, [release (ns NSButton.MINUS)])
  /\ quantize 200 = 128
  /\ (128 >? 128) = false
  /\ read_xbox1_event tt (axis_event 2 200)
     = Ok (tt, [release (ns NSButton.LEFT_THROTTLE)])
  /\ filter (fun c => is_press c = true) [release (ns NSButton.LEFT_THROTTLE)] = []
  /\ quantize 20000 = 206
  /\ (206 >? 128) = true
  /\ read_xbox1_event tt (axis_event 2 20000)
     = Ok (tt, [press (ns NSButton.LEFT_THROTTLE)]).
Proof. repeat split; reflexivity. Qed.

(** ** Button numbers outside the button table *)

Lemma getitem_beyond {A} (a : list A) (i : Z) :
  Z.of_nat (length a) <= i -> getitem a i = Raise IndexError.
Proof.
  intros Hi. unfold getitem.
  destruct (Z.ltb_spec i 0) as [Hneg | _]; [lia |].
  destruct (Z.leb_spec 0 i) as [_ | Hneg]; [| lia].
  destruct (Z.ltb_spec i (Z.of_nat (length a))) as [Hlt | _]; [lia |].
  reflexivity.
Qed.

Lemma decode_loop_event {S} (f : S -> js_event -> result (S * list call))
    (s : S) (evbuf : list byte) (ev : js_event) (rest : list read_result) :
  unpack_IhBB evbuf = Ok ev ->
  decode_loop f s (read_returns evbuf :: rest)
  = match f s ev with
    | Raise e => (died e, s, [])
    | Ok (s', out) =>
        let '(st, s'', out') := decode_loop f s' rest in (st, s'', out ++ out')
    end.
Proof.
  intros Hev. destruct evbuf as [| b evbuf]; [discriminate |].
  change (decode_loop f s (read_returns (b :: evbuf) :: rest))
    with (match unpack_IhBB (b :: evbuf) ≫= f s with
          | Raise e => (died e, s, [])
          | Ok (s', out) =>
              let '(st, s'', out') := decode_loop f s' rest in
              (st, s'', out ++ out')
          end).
  rewrite Hev. reflexivity.
Qed.

(** C1 as stated fails: the Xbox One table has 11 entries, and button 11
    is not ignored.  The lookup raises IndexError, the loop is left, and
    the following event is never decoded. *)
Lemma xbox1_button_11_not_ignored :
  unpack_IhBB button_11_pressed = Ok (button_event 11 1)
  /\ beyond_map xbox1 (button_event 11 1)
  /\ ~ ignores xbox1 locals_start (button_event 11 1)
  /\ run xbox1 [read_returns button_11_pressed; read_returns button_0_pressed]
     = (died IndexError, locals_start, []).
Proof.
  split; [reflexivity |]. split; [| split; [| reflexivity]].
  - split; [reflexivity |]. intros m Hm. cbn in Hm. simplify_eq. cbn. lia.
  - intros (s' & out & Hstep & _). vm_compute in Hstep. discriminate.
Qed.

(** ** The last-value caches of the racing wheel *)

Lemma decode_loop_keeps {S} (f : S -> js_event -> result (S * list call))
    (P : S -> Prop) :
  (forall s ev s' out, P s -> f s ev = Ok (s', out) -> P s') ->
  forall reads s, P s -> P (decode_loop f s reads).1.2.
Proof.
  intros Hstep reads.
  induction reads as [| [| evbuf] rest IH]; intros s Hs; [exact Hs .. |].
  destruct evbuf as [| b evbuf]; [exact (IH s Hs) |].
  cbn [decode_loop].
  destruct (unpack_IhBB (b :: evbuf)) as [ev | e]; cbn; [| exact Hs].
  destruct (f s ev) as [[s' out] | e] eqn:Hf; [| exact Hs].
  specialize (IH s' (Hstep _ _ _ _ Hs Hf)).
  destruct (decode_loop f s' rest) as [[st s''] out']. exact IH.
Qed.

Lemma wheel_event_keeps_last_wheel (s s' : wheel_locals) (ev : js_event)
    (out : list call) :
  read_hori_wheel_event s ev = Ok (s', out) -> last_wheel s' = last_wheel s.
Proof.
  unfold read_hori_wheel_event, mapped_button, mbind, result_bind, mret,
    result_ret.
  destruct (type ev =? 1); [destruct (getitem _ _); [| discriminate] |];
    destruct (type ev =? 2); split_tests; intros Hstep; simplify_eq;
    reflexivity.
Qed.

(** C7. On the throttle axes 2 and 5 of [read_hori_wheel], two events in
    a row with the same quantized value make at most one press call: the
    second finds its value in the cache, makes no call and leaves the
    locals as they are. *)
Theorem wheel_throttle_repeat (s : wheel_locals) (e1 e2 : js_event)
    (Hty1 : type e1 = 2) (Hty2 : type e2 = 2)
    (Hn1 : number e1 = 2 \/ number e1 = 5) (Hn2 : number e2 = number e1)
    (Hq : quantize (value e2) = quantize (value e1)) :
  exists s1 out1,
    read_hori_wheel_event s e1 = Ok (s1, out1)
    /\ read_hori_wheel_event s1 e2 = Ok (s1, [])
    /\ (length (filter (fun c => is_press c = true) out1) <= 1)%nat.
Proof.
  unfold quantize in Hq.
  unfold read_hori_wheel_event, mbind, result_bind, mret, result_ret.
  rewrite Hty1, Hty2, Hn2, Hq. cbn.
  destruct Hn1 as [-> | ->]; cbn.
  - destruct (last_left_throttle s =? (value e1 + 32768) ≫ 8) eqn:Hc; cbn.
    + eexists _, _. split; [reflexivity |]. rewrite Hc. cbn.
      split; [reflexivity | cbn; lia].
    + eexists _, _. split; [reflexivity |]. cbn. rewrite Z.eqb_refl. cbn.
      split; [reflexivity |].
      destruct ((value e1 + 32768) ≫ 8 >? 64); vm_compute; lia.
  - destruct (last_right_throttle s =? (value e1 + 32768) ≫ 8) eqn:Hc; cbn.
    + eexists _, _. split; [reflexivity |]. rewrite Hc. cbn.
      split; [reflexivity | cbn; lia].
    + eexists _, _. split; [reflexivity |]. cbn. rewrite Z.eqb_refl. cbn.
      split; [reflexivity |].
      destruct ((value e1 + 32768) ≫ 8 >? 64); vm_compute; lia.
Qed.

Lemma wheel_throttle_repeat_witness :
  exists s1 out1,
    read_hori_wheel_event wheel_start (axis_event 2 20000) = Ok (s1, out1)
    /\ read_hori_wheel_event s1 (axis_event 2 20100) = Ok (s1, [])
    /\ (length (filter (fun c => is_press c = true) out1) <= 1)%nat.
Proof.
  apply (wheel_throttle_repeat wheel_start (axis_event 2 20000)
           (axis_event 2 20100)).
  - reflexivity.
  - reflexivity.
  - left. reflexivity.
  - reflexivity.
  - reflexivity.
Defined.

(** C10. In [read_hori_wheel] the cache of the steering axis stays at its
    initial 128 whatever has been read, so an axis-0 event makes no call
    when its quantized value is 128 and calls leftXAxis with any other
    value; the locals are unchanged, so the same event repeated is sent
    again. *)
Theorem wheel_steering_cache_fixed (reads : list read_result) (ev : js_event)
    (Hty : type ev = 2) (Hn : number ev = 0) :
  let s := (read_hori_wheel reads).1.2 in
  let q := quantize (value ev) in
  last_wheel s = 128
  /\ read_hori_wheel_event s ev
     = Ok (s, if q =? 128 then [] else [leftXAxis q])
  /\ (q <> 128 ->
      forall evbuf, unpack_IhBB evbuf = Ok ev ->
        decode_loop read_hori_wheel_event s
          [read_returns evbuf; read_returns evbuf; read_raises]
        = (closed, s, [leftXAxis q; leftXAxis q])).
Proof.
  intros s q.
  assert (Hs : last_wheel s = 128).
  { apply (decode_loop_keeps read_hori_wheel_event
             (fun s => last_wheel s = 128)); [| reflexivity].
    intros s0 ev0 s' out Hs0 Hstep.
    rewrite (wheel_event_keeps_last_wheel _ _ _ _ Hstep). exact Hs0. }
  assert (Hstep : read_hori_wheel_event s ev
                  = Ok (s, if q =? 128 then [] else [leftXAxis q])).
  { unfold read_hori_wheel_event, mbind, result_bind, mret, result_ret.
    rewrite Hty, Hn, Hs.
    change (2 =? 1) with false. change (2 =? 2) with true.
    change (0 =? 0) with true. cbv beta iota zeta.
    subst q. unfold quantize. rewrite (Z.eqb_sym 128).
    destruct (_ =? 128); reflexivity. }
  split; [exact Hs |]. split; [exact Hstep |].
  intros Hq evbuf Hev.
  rewrite (decode_loop_event _ _ _ _ _ Hev), Hstep.
  rewrite (decode_loop_event _ _ _ _ _ Hev), Hstep.
  destruct (Z.eqb_spec q 128) as [Heq | _]; [contradiction |].
  reflexivity.
Qed.

Lemma wheel_steering_cache_fixed_witness :
  read_hori_wheel_event wheel_start (axis_event 0 20000)
  = Ok (wheel_start, [leftXAxis 206]).
Proof.
  apply (proj1 (proj2 (wheel_steering_cache_fixed [] (axis_event 0 20000)
                         eq_refl eq_refl))).
Defined.

(** ** The hot-plug loop *)


Lemma forget_lookup (h : host) (r : registry) (k : string) (t : Thread) :
  joysticks (forget h r) !! k = Some t
  <-> joysticks r !! k = Some t /\ is_alive h t = true.
Proof.
  unfold forget, joysticks_to_del. cbn [joysticks].
  rewrite lookup_foldr_delete_Some. split.
  - intros [Hnot Hk]. split; [exact Hk |].
    destruct (is_alive h t) eqn:Halive; [reflexivity |].
    exfalso. apply Hnot. apply list_elem_of_fmap. exists (k, t).
    split; [reflexivity |]. apply list_elem_of_filter.
    split; [exact Halive |]. by apply elem_of_map_to_list.
  - intros [Hk Halive]. split; [| exact Hk].
    intros Hin. apply list_elem_of_fmap in Hin as ([k' t'] & -> & Hin).
    apply list_elem_of_filter in Hin as [Hdead Hin].
    apply elem_of_map_to_list in Hin. cbn in *. congruence.
Qed.

Lemma land_1_odd (c : Z) : negb (Z.land c 1 =? 0) = Z.odd c.
Proof.
  change 1 with (Z.ones 1). rewrite Z.land_ones by lia.
  change (2 ^ 1) with 2. rewrite Zmod_odd.
  destruct (Z.odd c); reflexivity.
Qed.

(** The chain either leaves the registry alone (unknown name) or records
    one new thread under [k]. *)
Lemma attach_spec (k n : string) (r : registry) :
  (known n = false /\ attach k n r = r)
  \/ (known n = true
      /\ exists t,
           joysticks (attach k n r)
           = <[k := {| thread_target := t; jsdev := k; ident := started r |}]>
               (joysticks r)
           /\ started (attach k n r) = S (started r)).
Proof.
  unfold attach, known, signatures. cbn [existsb].
  repeat match goal with
         | |- context [contains ?sig n] => destruct (contains sig n)
         end; cbn [orb];
    try (left; split; reflexivity);
    right; (split; [reflexivity |]);
    try (eexists; split; reflexivity).
  all: destruct (negb _); eexists; split; reflexivity.
Qed.

(** A DragonRise name takes the side given by the parity of [dr_count]. *)
Lemma attach_dragon_rise (k n : string) (r : registry) :
  contains "HORIPAD" n = false -> contains "DRAGONRISE INC." n = true ->
  attach k n r
  = {| dr_count := dr_count r + 1;
       joysticks :=
         <[k := {| thread_target := dragon_rise (Z.odd (dr_count r));
                   jsdev := k; ident := started r |}]> (joysticks r);
       started := S (started r) |}.
Proof.
  intros Hh Hd. unfold attach. rewrite Hh, Hd, land_1_odd.
  destruct (Z.odd (dr_count r)); reflexivity.
Qed.

(** A scan only adds entries, all of them for threads it has started. *)
Lemma scan_grows (h : host) (fns : list string) :
  forall r r', scan h fns r = Ok r' ->
    (started r <= started r')%nat
    /\ (forall k t, joysticks r !! k = Some t -> joysticks r' !! k = Some t)
    /\ (forall k t, joysticks r' !! k = Some t ->
          joysticks r !! k = Some t
          \/ (started r <= ident t < started r')%nat).
Proof.
  induction fns as [| fn rest IH]; intros r r' Hscan; cbn [scan] in Hscan.
  { simplify_eq. repeat split; [lia | auto ..]. }
  destruct (String.prefix "js" fn); [| exact (IH _ _ Hscan)].
  destruct (joysticks r !! jsname fn) as [t0 |] eqn:Hk; [exact (IH _ _ Hscan) |].
  destruct (open_ok h (jsname fn)).
  2: { simplify_eq. repeat split; [lia | auto ..]. }
  destruct (JSIOCGNAME h (jsname fn)) as [name |]; [| discriminate].
  apply IH in Hscan as (Hle & Hold & Hnew).
  destruct (attach_spec (jsname fn) (upper name) r)
    as [[_ Heq] | (_ & t & Hjs & Hst)].
  { rewrite Heq in *. repeat split; assumption. }
  rewrite Hjs, Hst in *. split; [lia |]. split.
  - intros k t1 Hk1. apply Hold. rewrite lookup_insert_ne; [exact Hk1 |].
    intros <-. congruence.
  - intros k t1 Hk1. apply Hnew in Hk1 as [Hk1 | Hfresh]; [| right; lia].
    apply lookup_insert_Some in Hk1 as [[_ <-] | [_ Hk1]].
    + right. cbn. lia.
    + left. exact Hk1.
Qed.

(** *** Arcade sticks: the side follows the order of discovery *)


(** The same two sticks found in two successive iterations: the second
    one is plugged in after the first has been attached. *)
Example dragon_rise_roles_two_iterations :
  exists r,
    main_loop [one_stick; two_sticks] main_start = Ok r
    /\ thread_target <$> joysticks r !! jsname "js0" = Some (dragon_rise false)
    /\ thread_target <$> joysticks r !! jsname "js1" = Some (dragon_rise true).
Proof. eexists. split; [vm_compute; reflexivity |]. split; reflexivity. Qed.

(** *** Failures of [open] and of the name query *)

Lemma scan_open_fails (h : host) (fn : string) (rest : list string)
    (r : registry) :
  String.prefix "js" fn = true -> joysticks r !! jsname fn = None ->
  open_ok h (jsname fn) = false ->
  scan h (fn :: rest) r = Ok r.
Proof. intros Hjs Hk Hopen. cbn [scan]. by rewrite Hjs, Hk, Hopen. Qed.

Lemma scan_ioctl_fails (h : host) (fn : string) (rest : list string)
    (r : registry) :
  String.prefix "js" fn = true -> joysticks r !! jsname fn = None ->
  open_ok h (jsname fn) = true -> JSIOCGNAME h (jsname fn) = None ->
  scan h (fn :: rest) r = Raise OSError.
Proof.
  intros Hjs Hk Hopen Hname. cbn [scan]. by rewrite Hjs, Hk, Hopen, Hname.
Qed.

(** C6 does not hold of the code.  When [open] fails on js0 the [break]
    leaves the listing loop: js1, listed after it, is not examined in
    that iteration nor in the following ones, although alone it is
    attached at once.  When the name query fails on js0 the exception is
    not caught and [main] ends. *)
Theorem open_failure_skips_the_rest :
  poll js0_unreadable main_start = Ok main_start
  /\ main_loop [js0_unreadable; js0_unreadable; js0_unreadable] main_start
     = Ok main_start
  /\ joysticks main_start !! jsname "js1" = None
  /\ (exists r, poll js1_alone main_start = Ok r
                /\ thread_target <$> joysticks r !! jsname "js1" = Some horipad)
  /\ poll js0_nameless main_start = Raise OSError.
Proof.
  split; [reflexivity |]. split; [reflexivity |]. split; [reflexivity |].
  split; [| reflexivity].
  eexists. split; [vm_compute; reflexivity | reflexivity].
Qed.

(** *** What the listing loop finds *)



(** *** Arcade sticks among other devices *)










(** *** Threads that are not alive are forgotten *)




(** The side condition on thread numbers holds along every run of
    [main]: a tracked thread has been started. *)
Lemma poll_keeps_idents (h : host) (r r' : registry) :
  poll h r = Ok r' ->
  (forall k t, joysticks r !! k = Some t -> (ident t < started r)%nat) ->
  forall k t, joysticks r' !! k = Some t -> (ident t < started r')%nat.
Proof.
  unfold poll. intros Hscan Hr k t Hk.
  destruct (scan_grows _ _ _ _ Hscan) as (Hle & _ & Hnew).
  apply Hnew in Hk as [Hk | Hk]; [| lia].
  apply forget_lookup in Hk as [Hk _]. apply Hr in Hk. cbn in Hle. lia.
Qed.

Lemma main_loop_keeps_idents (hs : list host) :
  forall r r', main_loop hs r = Ok r' ->
    (forall k t, joysticks r !! k = Some t -> (ident t < started r)%nat) ->
    forall k t, joysticks r' !! k = Some t -> (ident t < started r')%nat.
Proof.
  induction hs as [| h hs IH]; intros r r' Hrun Hr; cbn in Hrun.
  { by simplify_eq. }
  destruct (poll h r) as [r1 |] eqn:Hpoll; [| discriminate].
  eapply IH; [exact Hrun |]. by eapply poll_keeps_idents.
Qed.

(** * Further properties of the code *)

(** ** Event records *)

Lemma u8_range (b : byte) : 0 <= u8 b <= 255.
Proof. unfold u8. pose proof (Byte.to_N_bounded b). lia. Qed.

Lemma u8_inj (b1 b2 : byte) : u8 b1 = u8 b2 -> b1 = b2.
Proof.
  unfold u8. intros Heq. apply N2Z.inj in Heq.
  pose proof (Byte.of_to_N b1) as H1. rewrite Heq, Byte.of_to_N in H1.
  congruence.
Qed.

Lemma to_int16_inj (u1 u2 : Z) :
  0 <= u1 < 65536 -> 0 <= u2 < 65536 -> to_int16 u1 = to_int16 u2 -> u1 = u2.
Proof.
  unfold to_int16. intros H1 H2.
  destruct (Z.ltb_spec u1 32768), (Z.ltb_spec u2 32768); lia.
Qed.

Lemma unpack_wrong_length (evbuf : list byte) :
  length evbuf <> 8%nat -> unpack_IhBB evbuf = Raise struct_error.
Proof.
  intros Hlen.
  destruct evbuf as [| t0 [| t1 [| t2 [| t3 [| v0 [| v1 [| ty [| nu [| x l]]]]]]]]];
    try reflexivity.
  cbn in Hlen. lia.
Qed.

(** X1. [unpack('IhBB', ...)] accepts exactly the buffers of 8 bytes; the
    fields it gives are an unsigned 32-bit time stamp, a signed 16-bit
    value and two unsigned bytes, and two buffers giving the same fields
    are the same buffer. *)
Theorem unpack_fields (evbuf : list byte) :
  (length evbuf <> 8%nat -> unpack_IhBB evbuf = Raise struct_error)
  /\ (length evbuf = 8%nat ->
      exists ev,
        unpack_IhBB evbuf = Ok ev
        /\ 0 <= timestamp ev < 2 ^ 32
        /\ -32768 <= value ev <= 32767
        /\ 0 <= type ev <= 255
        /\ 0 <= number ev <= 255
        /\ forall evbuf', unpack_IhBB evbuf' = Ok ev -> evbuf' = evbuf).
Proof.
  split; [apply unpack_wrong_length |].
  - intros Hlen.
    destruct evbuf as [| t0 [| t1 [| t2 [| t3 [| v0 [| v1 [| ty [| nu [| x l]]]]]]]]];
      try discriminate.
    eexists. split; [reflexivity |]. cbn [timestamp value type number].
    unfold to_int16, le_uint. cbn [foldr].
    pose proof (u8_range t0). pose proof (u8_range t1).
    pose proof (u8_range t2). pose proof (u8_range t3).
    pose proof (u8_range v0). pose proof (u8_range v1).
    pose proof (u8_range ty). pose proof (u8_range nu).
    split; [lia |]. split.
    { destruct (Z.ltb_spec (u8 v0 + 256 * (u8 v1 + 256 * 0)) 32768); lia. }
    split; [lia |]. split; [lia |].
    intros evbuf' Hev.
    destruct evbuf' as [| t0' [| t1' [| t2' [| t3' [| v0' [| v1' [| ty' [| nu' [| x' l']]]]]]]]];
      try discriminate.
    cbn in Hev. injection Hev as Ht Hv Hty Hn.
    apply u8_inj in Hty, Hn. subst ty' nu'.
    pose proof (u8_range t0'). pose proof (u8_range t1').
    pose proof (u8_range t2'). pose proof (u8_range t3').
    pose proof (u8_range v0'). pose proof (u8_range v1').
    apply to_int16_inj in Hv; [| lia ..].
    assert (u8 t0' = u8 t0 /\ u8 t1' = u8 t1 /\ u8 t2' = u8 t2
            /\ u8 t3' = u8 t3 /\ u8 v0' = u8 v0 /\ u8 v1' = u8 v1)
      as (E0 & E1 & E2 & E3 & E4 & E5) by lia.
    apply u8_inj in E0, E1, E2, E3, E4, E5. by subst.
Qed.

(** ** The decode loop *)

(** X2. A read that returns some bytes, but not 8, ends the thread with
    struct.error: no call is made for it and the reads after it are never
    made.  A read that returns nothing is skipped. *)
Theorem short_record_ends_decoder {S}
    (f : S -> js_event -> result (S * list call)) (s : S)
    (evbuf : list byte) (rest : list read_result)
    (Hsome : evbuf <> []) (Hlen : length evbuf <> 8%nat) :
  decode_loop f s (read_returns evbuf :: rest) = (died struct_error, s, [])
  /\ decode_loop f s (read_returns [] :: read_returns evbuf :: rest)
     = (died struct_error, s, []).
Proof.
  assert (Hraise : unpack_IhBB evbuf = Raise struct_error)
    by (apply unpack_wrong_length; exact Hlen).
  destruct evbuf as [| b evbuf]; [congruence |].
  cbn [decode_loop]. rewrite Hraise. split; reflexivity.
Qed.

Lemma short_record_ends_decoder_witness :
  read_horipad [read_returns [x00; x01; x02]%byte;
                read_returns button_0_pressed]
  = (died struct_error, tt, []).
Proof.
  apply (short_record_ends_decoder read_horipad_event tt
           [x00; x01; x02]%byte [read_returns button_0_pressed]).
  - discriminate.
  - cbn. lia.
Defined.

(** ** Events that are not button events *)

Ltac tests_to_Z :=
  repeat match goal with
         | H : (_ =? _) = true |- _ => apply Z.eqb_eq in H
         | H : (_ =? _) = false |- _ => apply Z.eqb_neq in H
         end.

Lemma other_event_step (t : target) (s : locals) (ev : js_event)
    (Hty : type ev <> 1) :
  exists s' out,
    on_event t s ev = Ok (s', out)
    /\ dpad_bits s' = dpad_bits s
    /\ (length out <= 1)%nat.
Proof.
  apply Z.eqb_neq in Hty.
  destruct s as [w d].
  destruct t; unfold_step; rewrite Hty; cbn [wheel dpad_bits];
    destruct (type ev =? 2); split_tests;
    eexists _, _; (split; [reflexivity |]);
    (split; [reflexivity | cbn; lia]).
Qed.

(** X4. No decoder raises on an event that is not a button event: it
    makes at most one call and leaves [dpad_bits] alone.  An event that is
    neither a button nor an axis event (the initial-state events of the
    joystick driver carry the flag 0x80) and an axis event whose number
    is not in 0..7 make no call and change nothing. *)
Theorem other_events_never_raise (t : target) (s : locals) (ev : js_event)
    (Hty : type ev <> 1) :
  exists s' out,
    on_event t s ev = Ok (s', out)
    /\ dpad_bits s' = dpad_bits s
    /\ (length out <= 1)%nat
    /\ (type ev <> 2 -> s' = s /\ out = [])
    /\ (number ev < 0 \/ 7 < number ev -> s' = s /\ out = []).
Proof.
  apply Z.eqb_neq in Hty.
  destruct s as [w d].
  destruct t; unfold_step; rewrite Hty; cbn [wheel dpad_bits];
    (destruct (type ev =? 2) eqn:Hax;
     [ split_tests; tests_to_Z;
       eexists _, _; (split; [reflexivity |]);
       (split; [reflexivity |]); (split; [cbn; lia |]);
       (split; [intros; congruence |]);
       intros Hn; try lia; (split; [try destruct w |]; reflexivity)
     | tests_to_Z; eexists _, _; (split; [reflexivity |]);
       (split; [reflexivity |]); (split; [cbn; lia |]);
       split; intros _; (split; [try destruct w |]; reflexivity) ]).
Qed.

Lemma other_events_never_raise_witness :
  exists s' out,
    on_event ps4ds locals_start
      {| timestamp := 0; value := 0; type := 130; number := 2 |}
    = Ok (s', out)
    /\ s' = locals_start /\ out = [].
Proof.
  destruct (other_events_never_raise ps4ds locals_start
              {| timestamp := 0; value := 0; type := 130; number := 2 |})
    as (s' & out & Hstep & _ & _ & Hother & _).
  - cbn. lia.
  - exists s', out. split; [exact Hstep |]. apply Hother. cbn. lia.
Defined.

(** ** Runs on mapped input *)

Lemma small_cases (n : nat) (z : Z) :
  0 <= z < Z.of_nat n -> exists i : nat, (i < n)%nat /\ z = Z.of_nat i.
Proof. intros Hz. exists (Z.to_nat z). lia. Qed.

Lemma dpad_lookup_direction (m : Z) :
  0 <= m < 16 -> getitem BUTTONS_MAP_DPAD m = Ok (direction_of m).
Proof.
  intros Hm. destruct (small_cases 16 m Hm) as (n & Hn & ->).
  do 16 (destruct n as [| n]; [reflexivity |]). lia.
Qed.

(** Setting or clearing one of the bits 0..3 of a 4-bit mask. *)
Lemma dpad_update (d k : Z) (pressed : bool) :
  0 <= d < 16 -> 0 <= k < 4 ->
  let d' := if pressed then Z.lor d (Z.shiftl 1 k)
            else Z.land d (Z.lnot (Z.shiftl 1 k)) in
  0 <= d' < 16 /\ bit_replaced d d' k pressed.
Proof.
  intros Hd Hk.
  destruct (small_cases 16 d Hd) as (n & Hn & ->).
  destruct (small_cases 4 k Hk) as (j & Hj & ->).
  do 4 (destruct j as [| j];
        [ destruct pressed;
          do 16 (destruct n as [| n];
                 [ cbv zeta; unfold bit_replaced;
                   split; [split; [apply Z.leb_le | apply Z.ltb_lt] |];
                   repeat split; reflexivity |]); lia |]).
  lia.
Qed.

Lemma getitem_in_range {A} (a : list A) (i : Z) :
  0 <= i < Z.of_nat (length a) ->
  exists x, getitem a i = Ok x /\ a !! Z.to_nat i = Some x.
Proof.
  intros Hi. unfold getitem.
  destruct (Z.ltb_spec i 0) as [Hneg | _]; [lia |].
  destruct (Z.leb_spec 0 i) as [_ | Hneg]; [| lia].
  destruct (Z.ltb_spec i (Z.of_nat (length a))) as [_ | Hge]; [| lia].
  destruct (lookup_lt_is_Some_2 a (Z.to_nat i)) as [x Hx]; [lia |].
  exists x. by rewrite Hx.
Qed.

Lemma getitem_Ok_elem {A} (a : list A) (i : Z) (x : A) :
  getitem a i = Ok x -> x ∈ a.
Proof.
  unfold getitem. destruct (_ && _); [| discriminate].
  destruct (a !! _) as [y |] eqn:Hy; [| discriminate].
  intros Heq. simplify_eq. by eapply list_elem_of_lookup_2.
Qed.

(** The direction buttons of the left arcade stick: numbers 3..6 hold
    255 in the table, and only they. *)
Lemma left_stick_markers (n : Z) (b : button_code) :
  getitem BUTTON_MAP_LEFT n = Ok b -> 0 <= n ->
  is_255 b = true <-> 3 <= n <= 6.
Proof.
  intros Hb Hn.
  destruct (Z.ltb_spec n 12) as [Hlt | Hge].
  - destruct (small_cases 12 n) as (i & Hi & ->); [cbn; lia |].
    do 12 (destruct i as [| i];
           [ vm_compute in Hb; simplify_eq; cbn;
             split; intros; first [reflexivity | lia | discriminate] |]).
    lia.
  - rewrite getitem_beyond in Hb by (cbn; lia). discriminate.
Qed.

Lemma right_stick_no_marker (n : Z) (b : button_code) :
  getitem BUTTON_MAP_RIGHT n = Ok b -> is_255 b = false.
Proof.
  intros Hb. apply getitem_Ok_elem in Hb.
  unfold BUTTON_MAP_RIGHT in Hb.
  repeat (apply elem_of_cons in Hb as [-> | Hb]; [reflexivity |]).
  inversion Hb.
Qed.

Ltac unfold_monad := unfold mbind, result_bind, mret, result_ret.

(** A direction button of the left arcade stick. *)
Lemma dragon_left_direction (d : Z) (ev : js_event) :
  0 <= d < 16 -> type ev = 1 -> 3 <= number ev <= 6 ->
  exists d',
    read_dragon_rise_event false d ev = Ok (d', [dPad (direction_of d')])
    /\ 0 <= d' < 16
    /\ bit_replaced d d' (number ev - 3) (negb (value ev =? 0)).
Proof.
  intros Hd Hty Hn.
  destruct (getitem_in_range BUTTON_MAP_LEFT (number ev)) as (b & Hb & _);
    [cbn; lia |].
  assert (H255 : is_255 b = true)
    by (apply (left_stick_markers (number ev)); [exact Hb | lia | exact Hn]).
  pose proof (dpad_update d (number ev - 3) (negb (value ev =? 0)) Hd
                ltac:(lia)) as [Hrange Hbits].
  unfold read_dragon_rise_event. unfold_monad.
  rewrite Hty. change (1 =? 1) with true. change (1 =? 2) with false.
  cbv iota. rewrite Hb. cbv iota beta. rewrite H255. cbv iota zeta.
  destruct (value ev =? 0); cbn [negb] in Hrange, Hbits;
    rewrite (dpad_lookup_direction _ Hrange); cbv iota beta;
    eexists; (split; [reflexivity |]); split; assumption.
Qed.

(** One step of [read_dragon_rise] on a record as the driver delivers it
    (the button number is a byte). *)
Lemma dragon_step_range (right_side : bool) (d d' : Z) (ev : js_event)
    (out : list call) :
  0 <= d < 16 -> 0 <= number ev ->
  read_dragon_rise_event right_side d ev = Ok (d', out) ->
  0 <= d' < 16
  /\ (length out <= 1)%nat
  /\ (right_side = true -> d' = d /\ forall c, c ∈ out -> is_dPad c = false).
Proof.
  intros Hd Hn.
  destruct (Z.eqb_spec (type ev) 1) as [Hty | Hty].
  - destruct right_side.
    + unfold read_dragon_rise_event. unfold_monad.
      rewrite Hty. change (1 =? 1) with true. change (1 =? 2) with false.
      cbv iota.
      destruct (getitem BUTTON_MAP_RIGHT (number ev)) as [b |] eqn:Hb;
        [| discriminate].
      rewrite (right_stick_no_marker _ _ Hb). unfold press_or_release.
      destruct (value ev =? 0); intros Hstep; simplify_eq;
        (split; [exact Hd |]); (split; [cbn; lia |]); intros _;
        (split; [reflexivity |]); intros c Hc;
        apply list_elem_of_singleton in Hc; by subst c.
    + destruct (getitem BUTTON_MAP_LEFT (number ev)) as [b |] eqn:Hb.
      * destruct (is_255 b) eqn:H255.
        -- apply (left_stick_markers _ _ Hb Hn) in H255.
           destruct (dragon_left_direction d ev Hd Hty H255)
             as (d1 & Hstep & Hrange & _).
           rewrite Hstep. intros Heq. simplify_eq.
           split; [exact Hrange |]. split; [cbn; lia | discriminate].
        -- unfold read_dragon_rise_event. unfold_monad.
           rewrite Hty. change (1 =? 1) with true. change (1 =? 2) with false.
           cbv iota. rewrite Hb. cbv iota beta. rewrite H255.
           unfold press_or_release.
           destruct (value ev =? 0); intros Hstep; simplify_eq;
             (split; [exact Hd |]); split; [cbn; lia | discriminate
                                           | cbn; lia | discriminate].
      * unfold read_dragon_rise_event. unfold_monad.
        rewrite Hty. change (1 =? 1) with true. cbv iota. rewrite Hb.
        discriminate.
  - unfold read_dragon_rise_event. unfold_monad.
    apply Z.eqb_neq in Hty. rewrite Hty. cbv iota.
    destruct (type ev =? 2), right_side; split_tests; intros Hstep;
      simplify_eq; (split; [exact Hd |]); (split; [cbn; lia |]);
      intros; try discriminate; (split; [reflexivity |]);
      intros c Hc; repeat (apply elem_of_cons in Hc as [-> | Hc];
                           [reflexivity |]); inversion Hc.
Qed.

Lemma only_left_stick_has_markers (t : target) (m : list button_code)
    (b : button_code) :
  button_map t = Some m -> b ∈ m -> is_255 b = true -> t = dragon_rise false.
Proof.
  intros Hm Hb H255.
  destruct t as [| [|] | | | | |]; cbn in Hm; simplify_eq; try reflexivity;
    exfalso;
    repeat (apply elem_of_cons in Hb as [-> | Hb]; [discriminate |]);
    inversion Hb.
Qed.

(** C1, amended.  In the table-driven decoders a button number at or past
    the end of the table makes no sink call but is not ignored: the
    lookup raises IndexError and the decode loop ends there.  A number
    inside the table presses or releases the table's entry, unless the
    entry is the marker 255.  Only the table of the left arcade stick
    holds markers, under the button numbers 3..6: there the decoder sets
    or clears bit (number - 3) of its 4-bit [dpad_bits] and calls dPad
    with the direction of the new mask.  [read_horipad] has no table: it
    never fails on a button event and passes the number itself to press
    or release. *)
Theorem unmapped_button_raises (t : target) (s : locals) (ev : js_event)
    (Hty : type ev = 1) :
  (forall m, button_map t = Some m -> Z.of_nat (length m) <= number ev ->
     on_event t s ev = Raise IndexError
     /\ forall evbuf rest,
          unpack_IhBB evbuf = Ok ev ->
          decode_loop (on_event t) s (read_returns evbuf :: rest)
          = (died IndexError, s, []))
  /\ (forall m b, button_map t = Some m -> getitem m (number ev) = Ok b ->
      is_255 b = false ->
      on_event t s ev = Ok (s, press_or_release (value ev) b))
  /\ (forall m b, button_map t = Some m -> getitem m (number ev) = Ok b ->
      is_255 b = true ->
      t = dragon_rise false
      /\ (0 <= number ev ->
          3 <= number ev <= 6
          /\ (0 <= dpad_bits s < 16 ->
              exists d',
                on_event t s ev
                = Ok ({| wheel := wheel s; dpad_bits := d' |},
                      [dPad (direction_of d')])
                /\ 0 <= d' < 16
                /\ bit_replaced (dpad_bits s) d' (number ev - 3)
                     (negb (value ev =? 0)))))
  /\ (button_map t = None ->
      on_event t s ev = Ok (s, press_or_release (value ev) (raw (number ev)))).
Proof.
  split; [| split; [| split]].
  - intros m Hm Hlen.
    assert (Hraise : on_event t s ev = Raise IndexError).
    { destruct t as [| [|] | | | | |]; cbn in Hm; simplify_eq;
        unfold_step; rewrite Hty; cbn;
        rewrite getitem_beyond by assumption; reflexivity. }
    split; [exact Hraise |].
    intros evbuf rest Hev.
    rewrite (decode_loop_event _ _ _ _ _ Hev), Hraise. reflexivity.
  - intros m b Hm Hb H255.
    destruct t as [| [|] | | | | |]; cbn in Hm; simplify_eq;
      unfold_step; rewrite Hty; cbn; rewrite Hb; cbn;
      rewrite ?H255; cbn; rewrite ?app_nil_r;
      destruct s as [w d]; try destruct w; reflexivity.
  - intros m b Hm Hb H255.
    pose proof (only_left_stick_has_markers t m b Hm
                  (getitem_Ok_elem _ _ _ Hb) H255) as ->.
    split; [reflexivity |]. intros Hn.
    cbn in Hm. simplify_eq.
    pose proof (proj1 (left_stick_markers _ _ Hb Hn) H255) as Hrange.
    split; [exact Hrange |]. intros Hd.
    destruct (dragon_left_direction (dpad_bits s) ev Hd Hty Hrange)
      as (d' & Hstep & Hd' & Hbits).
    exists d'. unfold on_event. unfold_monad. rewrite Hstep.
    split; [reflexivity |]. split; assumption.
  - intros Hm. destruct t as [| [|] | | | | |]; cbn in Hm; simplify_eq.
    unfold_step. rewrite Hty. cbn. rewrite app_nil_r. reflexivity.
Qed.

Lemma unmapped_button_raises_witness :
  type (button_event 11 1) = 1
  /\ on_event xbox1 locals_start (button_event 11 1) = Raise IndexError.
Proof.
  split; [reflexivity |].
  apply (proj1 (unmapped_button_raises xbox1 locals_start (button_event 11 1)
                  eq_refl) xbox1_BUTTON_MAP eq_refl).
  cbn. lia.
Defined.

(** Button 3 of the left arcade stick, pressed: no press, but the
    direction pad goes up. *)
Example left_stick_button_3 :
  on_event (dragon_rise false) locals_start (button_event 3 1)
  = Ok ({| wheel := wheel_start; dpad_bits := 1 |}, [dPad NSDPad.UP]).
Proof. reflexivity. Qed.

Lemma table_button_step (m : list button_code) (ev : js_event) :
  0 <= number ev < Z.of_nat (length m) ->
  exists b, getitem m (number ev) = Ok b
            /\ mapped_button m ev = Ok (press_or_release (value ev) b).
Proof.
  intros Hn. destruct (getitem_in_range m (number ev) Hn) as (b & Hb & _).
  exists b. split; [exact Hb |]. unfold mapped_button. unfold_monad.
  by rewrite Hb.
Qed.

Lemma press_or_release_length (v : Z) (b : button_code) :
  length (press_or_release v b) = 1%nat.
Proof. unfold press_or_release. by destruct (v =? 0). Qed.

(** One step of any decoder on a record whose button number is inside
    the table. *)
Lemma mapped_event_step (t : target) (s : locals) (ev : js_event) :
  0 <= dpad_bits s < 16 -> in_table t ev ->
  exists s' out,
    on_event t s ev = Ok (s', out)
    /\ 0 <= dpad_bits s' < 16
    /\ (length out <= 1)%nat.
Proof.
  intros Hd Hin.
  destruct (Z.eqb_spec (type ev) 1) as [Hty | Hty].
  2: { destruct (other_event_step t s ev Hty) as (s' & out & Hs & Hd' & Hl).
       exists s', out. rewrite Hd'. auto. }
  specialize (Hin Hty).
  assert (Hlen : forall v b, (length (press_or_release v b ++ []) <= 1)%nat).
  { intros v b. rewrite app_nil_r, press_or_release_length. lia. }
  destruct t as [| right_side | | | | |].
  - unfold_step. rewrite Hty. cbn.
    eexists _, _. split; [reflexivity |]. split; [exact Hd |].
    destruct (value ev =? 0); cbn; lia.
  - assert (Hn : 0 <= number ev
                 /\ exists b, getitem (if right_side then BUTTON_MAP_RIGHT
                                       else BUTTON_MAP_LEFT) (number ev) = Ok b).
    { destruct right_side.
      - destruct (table_button_step BUTTON_MAP_RIGHT ev (Hin _ eq_refl))
          as (b & Hb & _).
        split; [specialize (Hin _ eq_refl); lia | eauto].
      - destruct (table_button_step BUTTON_MAP_LEFT ev (Hin _ eq_refl))
          as (b & Hb & _).
        split; [specialize (Hin _ eq_refl); lia | eauto]. }
    destruct Hn as [Hn [b Hb]].
    assert (Hok : exists d' out,
               read_dragon_rise_event right_side (dpad_bits s) ev = Ok (d', out)).
    { destruct (is_255 b) eqn:H255.
      - destruct right_side.
        + rewrite (right_stick_no_marker _ _ Hb) in H255. discriminate.
        + apply (left_stick_markers _ _ Hb Hn) in H255.
          destruct (dragon_left_direction _ ev Hd Hty H255) as (d' & Hs & _).
          eauto.
      - unfold read_dragon_rise_event. unfold_monad.
        rewrite Hty. change (1 =? 1) with true. cbv iota. rewrite Hb.
        cbv iota beta. rewrite H255. eauto. }
    destruct Hok as (d' & out & Hstep).
    destruct (dragon_step_range _ _ _ _ _ Hd Hn Hstep) as (Hd' & Hl & _).
    unfold on_event. unfold_monad. rewrite Hstep.
    eexists _, _. split; [reflexivity |]. split; assumption.
  - destruct (table_button_step _ ev (Hin _ eq_refl)) as (b & _ & Hb).
    unfold on_event, stateless, read_le3dp_event, flightstick_axes.
    unfold_monad. rewrite Hty. change (1 =? 1) with true.
    change (1 =? 2) with false. cbv iota. rewrite Hb.
    eexists _, _. split; [reflexivity |]. split; [exact Hd | apply Hlen].
  - destruct (table_button_step _ ev (Hin _ eq_refl)) as (b & _ & Hb).
    unfold on_event, stateless, read_t16k_event, flightstick_axes.
    unfold_monad. rewrite Hty. change (1 =? 1) with true.
    change (1 =? 2) with false. cbv iota. rewrite Hb.
    eexists _, _. split; [reflexivity |]. split; [exact Hd | apply Hlen].
  - destruct (table_button_step _ ev (Hin _ eq_refl)) as (b & _ & Hb).
    unfold on_event, stateless, read_xbox1_event.
    unfold_monad. rewrite Hty. change (1 =? 1) with true.
    change (1 =? 2) with false. cbv iota. rewrite Hb.
    eexists _, _. split; [reflexivity |]. split; [exact Hd | apply Hlen].
  - destruct (table_button_step _ ev (Hin _ eq_refl)) as (b & _ & Hb).
    unfold on_event, stateless, read_ps4ds_event.
    unfold_monad. rewrite Hty. change (1 =? 1) with true.
    change (1 =? 2) with false. cbv iota. rewrite Hb.
    eexists _, _. split; [reflexivity |]. split; [exact Hd | apply Hlen].
  - destruct (table_button_step _ ev (Hin _ eq_refl)) as (b & _ & Hb).
    unfold on_event, read_hori_wheel_event.
    unfold_monad. rewrite Hty. change (1 =? 1) with true.
    change (1 =? 2) with false. cbv iota. rewrite Hb.
    eexists _, _. split; [reflexivity |]. split; [exact Hd | apply Hlen].
Qed.

(** X5. As long as every record read has 8 bytes and every button number
    lies inside the decoder's table, no decoder thread dies: after any
    such reads the thread is still reading, or has closed the device
    because a read failed, and the second holds exactly when some read
    failed.  It has made at most one call per read, and [dpad_bits] is a
    4-bit mask. *)
Theorem mapped_input_never_kills (t : target) (reads : list read_result)
    (Hreads : Forall (mapped_read t) reads) :
  exists st s out,
    run t reads = (st, s, out)
    /\ (st = in_read \/ st = closed)
    /\ (st = closed <-> read_raises ∈ reads)
    /\ (length out <= length reads)%nat
    /\ 0 <= dpad_bits s < 16.
Proof.
  unfold run.
  assert (Hstart : 0 <= dpad_bits locals_start < 16) by (cbn; lia).
  revert Hstart. generalize locals_start.
  induction Hreads as [| r rest Hr Hrest IH]; intros s Hs.
  { exists in_read, s, []. split; [reflexivity |]. split; [by left |].
    split; [| split; [cbn; lia | exact Hs]].
    split; [discriminate | intros Hin; inversion Hin]. }
  destruct r as [| evbuf].
  { exists closed, s, []. split; [reflexivity |]. split; [by right |].
    split; [| split; [cbn; lia | exact Hs]].
    split; [intros _; apply list_elem_of_here | reflexivity]. }
  assert (Hskip : forall st : status,
             (st = closed <-> read_raises ∈ rest) ->
             (st = closed <-> read_raises ∈ read_returns evbuf :: rest)).
  { intros st Hiff. rewrite Hiff, elem_of_cons.
    split; [by right | intros [Heq | Hin]; [discriminate | exact Hin]]. }
  destruct Hr as [-> | (ev & Hev & Hin)].
  { destruct (IH s Hs) as (st & s' & out & Hrun & Hst & Hcl & Hlen & Hd).
    exists st, s', out. cbn [decode_loop]. split; [exact Hrun |].
    split; [exact Hst |]. split; [by apply Hskip |].
    split; [cbn; lia | exact Hd]. }
  destruct (mapped_event_step t s ev Hs Hin) as (s1 & out1 & Hstep & Hs1 & Hl1).
  destruct (IH s1 Hs1) as (st & s' & out & Hrun & Hst & Hcl & Hlen & Hd).
  exists st, s', (out1 ++ out).
  rewrite (decode_loop_event _ _ _ _ _ Hev), Hstep, Hrun.
  split; [reflexivity |]. split; [exact Hst |].
  split; [by apply Hskip |].
  split; [rewrite length_app; cbn; lia | exact Hd].
Qed.

Lemma mapped_input_never_kills_witness :
  exists st s out,
    run xbox1 [read_returns button_0_pressed; read_returns []; read_raises]
    = (st, s, out)
    /\ (st = in_read \/ st = closed).
Proof.
  destruct (mapped_input_never_kills xbox1
              [read_returns button_0_pressed; read_returns []; read_raises])
    as (st & s & out & Hrun & Hst & _).
  - apply Forall_cons. split.
    + right. eexists. split; [reflexivity |].
      intros _ m Hm. cbn in Hm. simplify_eq. cbn. lia.
    + apply Forall_cons. split; [by left |].
      apply Forall_cons. split; [exact I | by apply Forall_nil].
  - eauto.
Defined.

(** ** Invariants along a run *)

Lemma unpack_number_range (evbuf : list byte) (ev : js_event) :
  unpack_IhBB evbuf = Ok ev -> 0 <= number ev <= 255.
Proof.
  destruct evbuf as [| t0 [| t1 [| t2 [| t3 [| v0 [| v1 [| ty [| nu [| x l]]]]]]]]];
    try discriminate.
  intros Hev. cbn in Hev. simplify_eq. cbn. apply u8_range.
Qed.

Lemma records_satisfy_unpacked (reads : list read_result) :
  records_satisfy (fun ev => 0 <= number ev) reads.
Proof.
  apply Forall_forall. intros r _ evbuf ev _ Hev.
  apply unpack_number_range in Hev. lia.
Qed.

(** A property of the locals and a property of the calls that every step
    on an event satisfying [Q] keeps hold along the whole loop. *)
Lemma decode_loop_inv {S} (f : S -> js_event -> result (S * list call))
    (P : S -> Prop) (R : call -> Prop) (Q : js_event -> Prop) :
  (forall s ev s' out,
      P s -> Q ev -> f s ev = Ok (s', out) -> P s' /\ Forall R out) ->
  forall reads, records_satisfy Q reads ->
  forall s, P s ->
    P (decode_loop f s reads).1.2 /\ Forall R (decode_loop f s reads).2.
Proof.
  intros Hstep reads Hreads.
  induction Hreads as [| r rest Hr Hrest IH]; intros s Hs; [by split |].
  destruct r as [| evbuf]; [by split |].
  destruct evbuf as [| b evbuf]; [exact (IH s Hs) |].
  cbn [decode_loop].
  destruct (unpack_IhBB (b :: evbuf)) as [ev | e] eqn:Hev; cbn; [| by split].
  destruct (f s ev) as [[s' out] | e] eqn:Hf; [| by split].
  destruct (Hstep _ _ _ _ Hs (Hr _ _ eq_refl Hev) Hf) as [Hs' Hout].
  destruct (IH s' Hs') as [Hfin Hcalls].
  destruct (decode_loop f s' rest) as [[st s''] out']. cbn in *.
  split; [exact Hfin | by apply Forall_app].
Qed.

(** X6. In [read_dragon_rise] for the left stick, [dpad_bits] is a 4-bit
    mask after any reads, and a button event numbered 3, 4, 5 or 6 (Up,
    Right, Down, Left) sets bit 0, 1, 2 or 3 of it when the value is not
    zero and clears it otherwise, leaves the other bits, and makes the
    single call dPad with the direction the table gives for the new
    mask: opposite directions held together give CENTERED. *)
Theorem left_stick_direction_buttons (reads : list read_result)
    (ev : js_event) (Hty : type ev = 1) (Hn : 3 <= number ev <= 6) :
  let d := (read_dragon_rise false reads).1.2 in
  0 <= d < 16
  /\ exists d',
       read_dragon_rise_event false d ev = Ok (d', [dPad (direction_of d')])
       /\ 0 <= d' < 16
       /\ bit_replaced d d' (number ev - 3) (negb (value ev =? 0))
       /\ (left_bit d' && right_bit d' = true \/ up_bit d' && down_bit d' = true ->
           direction_of d' = NSDPad.CENTERED).
Proof.
  intros d.
  assert (Hd : 0 <= d < 16).
  { apply (decode_loop_inv (read_dragon_rise_event false)
             (fun d => 0 <= d < 16) (fun _ => True) (fun ev => 0 <= number ev)).
    - intros s0 ev0 s' out Hs0 Hn0 Hstep.
      split; [| by apply Forall_forall].
      by destruct (dragon_step_range _ _ _ _ _ Hs0 Hn0 Hstep).
    - apply records_satisfy_unpacked.
    - lia. }
  split; [exact Hd |].
  destruct (dragon_left_direction d ev Hd Hty Hn) as (d' & Hstep & Hd' & Hbits).
  exists d'. split; [exact Hstep |]. split; [exact Hd' |].
  split; [exact Hbits |].
  unfold direction_of.
  destruct (left_bit d'), (right_bit d'), (up_bit d'), (down_bit d');
    cbn; intros [? | ?]; (reflexivity || discriminate).
Qed.

Lemma left_stick_direction_buttons_witness :
  exists d',
    read_dragon_rise_event false 0 (button_event 4 1)
    = Ok (d', [dPad (direction_of d')])
    /\ bit_replaced 0 d' 1 true.
Proof.
  destruct (left_stick_direction_buttons [] (button_event 4 1) eq_refl)
    as (_ & d' & Hstep & _ & Hbits & _).
  - cbn. lia.
  - exists d'. split; [exact Hstep | exact Hbits].
Defined.

(** X7. [read_dragon_rise] for the right stick never calls dPad and never
    changes [dpad_bits], whatever it reads. *)
Theorem right_stick_leaves_dpad (reads : list read_result) :
  (read_dragon_rise true reads).1.2 = 0
  /\ Forall (fun c => is_dPad c = false) (read_dragon_rise true reads).2.
Proof.
  apply (decode_loop_inv (read_dragon_rise_event true)
           (fun d => d = 0) (fun c => is_dPad c = false)
           (fun ev => 0 <= number ev)).
  - intros s ev s' out -> Hn Hstep.
    destruct (dragon_step_range true 0 s' ev out ltac:(lia) Hn Hstep)
      as (_ & _ & Hright).
    destruct (Hright eq_refl) as [-> Hcalls].
    split; [reflexivity | by apply Forall_forall].
  - apply records_satisfy_unpacked.
  - reflexivity.
Qed.

(** ** The throttle caches of the racing wheel *)

Lemma wheel_other_event_keeps_cache (n : Z) (s s' : wheel_locals)
    (ev : js_event) (out : list call) :
  n = 2 \/ n = 5 -> ~ (type ev = 2 /\ number ev = n) ->
  read_hori_wheel_event s ev = Ok (s', out) ->
  throttle_cache n s' = throttle_cache n s.
Proof.
  intros Hn Hother.
  unfold read_hori_wheel_event, mapped_button. unfold_monad.
  destruct (type ev =? 1); [destruct (getitem _ _); [| discriminate] |];
    destruct (type ev =? 2) eqn:Hty; split_tests; tests_to_Z;
    intros Hstep; simplify_eq; try reflexivity;
    destruct Hn as [-> | ->]; try reflexivity; exfalso; apply Hother; lia.
Qed.

Lemma wheel_throttle_event (n : Z) (s : wheel_locals) (ev : js_event) :
  n = 2 \/ n = 5 -> type ev = 2 -> number ev = n ->
  exists s' out,
    read_hori_wheel_event s ev = Ok (s', out)
    /\ throttle_cache n s' = quantize (value ev)
    /\ (throttle_cache n s = quantize (value ev) -> s' = s /\ out = []).
Proof.
  intros Hn Hty Hnum.
  unfold read_hori_wheel_event, throttle_cache, quantize. unfold_monad.
  rewrite Hty, Hnum. change (2 =? 1) with false. change (2 =? 2) with true.
  cbv iota.
  destruct Hn as [-> | ->].
  - change (2 =? 0) with false. change (2 =? 1) with false.
    change (2 =? 2) with true. cbv iota.
    destruct (Z.eqb_spec (last_left_throttle s) ((value ev + 32768) ≫ 8))
      as [Heq | Hne]; cbn [negb]; cbv iota.
    + eexists _, _. split; [reflexivity |]. by split.
    + eexists _, _. split; [reflexivity |]. split; [reflexivity |].
      intros Heq. contradiction.
  - change (5 =? 0) with false. change (5 =? 1) with false.
    change (5 =? 2) with false. change (5 =? 3) with false.
    change (5 =? 4) with false. change (5 =? 5) with true. cbv iota.
    destruct (Z.eqb_spec (last_right_throttle s) ((value ev + 32768) ≫ 8))
      as [Heq | Hne]; cbn [negb]; cbv iota.
    + eexists _, _. split; [reflexivity |]. by split.
    + eexists _, _. split; [reflexivity |]. split; [reflexivity |].
      intros Heq. contradiction.
Qed.

(** X8. The throttle caches of [read_hori_wheel] outlive other events:
    after an event on axis 2 (or 5), whatever is read next that is not
    an event on that axis, a later event on it with the same quantized
    value makes no call and changes nothing. *)
Theorem wheel_throttle_repeat_later (s : wheel_locals) (e1 e2 : js_event)
    (mid : list read_result)
    (Hty1 : type e1 = 2) (Hty2 : type e2 = 2)
    (Hn1 : number e1 = 2 \/ number e1 = 5) (Hn2 : number e2 = number e1)
    (Hq : quantize (value e2) = quantize (value e1))
    (Hmid : records_satisfy
              (fun ev => ~ (type ev = 2 /\ number ev = number e1)) mid) :
  exists s1 out1,
    read_hori_wheel_event s e1 = Ok (s1, out1)
    /\ let s2 := (decode_loop read_hori_wheel_event s1 mid).1.2 in
       read_hori_wheel_event s2 e2 = Ok (s2, []).
Proof.
  destruct (wheel_throttle_event (number e1) s e1 Hn1 Hty1 eq_refl)
    as (s1 & out1 & Hstep1 & Hcache & _).
  exists s1, out1. split; [exact Hstep1 |]. intros s2.
  assert (Hs2 : throttle_cache (number e1) s2 = quantize (value e1)).
  { apply (decode_loop_inv read_hori_wheel_event
             (fun s => throttle_cache (number e1) s = quantize (value e1))
             (fun _ => True)
             (fun ev => ~ (type ev = 2 /\ number ev = number e1))).
    - intros s0 ev s' out Hs0 Hother Hstep.
      split; [| by apply Forall_forall].
      by rewrite (wheel_other_event_keeps_cache _ _ _ _ _ Hn1 Hother Hstep).
    - exact Hmid.
    - exact Hcache. }
  destruct (wheel_throttle_event (number e1) s2 e2 Hn1 Hty2 Hn2)
    as (s3 & out3 & Hstep2 & _ & Hsame).
  rewrite Hq in Hsame. destruct (Hsame Hs2) as [-> ->]. exact Hstep2.
Qed.

Lemma wheel_throttle_repeat_later_witness :
  exists s1 out1,
    read_hori_wheel_event wheel_start (axis_event 5 20000) = Ok (s1, out1)
    /\ let s2 := (decode_loop read_hori_wheel_event s1
                    [read_returns button_0_pressed]).1.2 in
       read_hori_wheel_event s2 (axis_event 5 20100) = Ok (s2, []).
Proof.
  apply (wheel_throttle_repeat_later wheel_start (axis_event 5 20000)
           (axis_event 5 20100) [read_returns button_0_pressed]).
  - reflexivity.
  - reflexivity.
  - right. reflexivity.
  - reflexivity.
  - reflexivity.
  - apply Forall_cons. split; [| by apply Forall_nil].
    intros evbuf ev Hr Hev. simplify_eq. cbn in Hev. simplify_eq.
    cbn. intros [Hty _]. discriminate.
Defined.

(** ** DpadBits *)

Lemma shiftl_1_bit (k i : Z) :
  0 <= k -> Z.testbit (Z.shiftl 1 k) i = (k =? i).
Proof. intros Hk. rewrite Z.shiftl_1_l. by apply Z.pow2_bits_eqb. Qed.

Lemma set_bits (b k i : Z) :
  0 <= k -> 0 <= i ->
  Z.testbit (Z.lor b (Z.shiftl 1 k)) i = Z.testbit b i || (k =? i).
Proof. intros Hk Hi. by rewrite Z.lor_spec, shiftl_1_bit. Qed.

Lemma clear_bits (b k i : Z) :
  0 <= k -> 0 <= i ->
  Z.testbit (Z.land b (Z.lnot (Z.shiftl 1 k))) i
  = Z.testbit b i && negb (k =? i).
Proof.
  intros Hk Hi. by rewrite Z.land_spec, Z.lnot_spec, shiftl_1_bit.
Qed.

Lemma set_bit_fst (b k : Z) :
  0 <= k -> (set_bit b k).1 = Z.lor b (Z.shiftl 1 k).
Proof.
  intros Hk. unfold set_bit.
  destruct (Z.ltb_spec k 0); [lia | reflexivity].
Qed.

Lemma clear_bit_fst (b k : Z) :
  0 <= k -> (clear_bit b k).1 = Z.land b (Z.lnot (Z.shiftl 1 k)).
Proof.
  intros Hk. unfold clear_bit.
  destruct (Z.ltb_spec k 0); [lia | reflexivity].
Qed.

(** Equality of two integers from the equality of their bits, the bits
    compared after rewriting with the two lemmas above. *)
Ltac by_bits :=
  apply Z.bits_inj'; intros i Hi;
  repeat first [rewrite set_bits by assumption
               | rewrite clear_bits by assumption];
  repeat match goal with
         | |- context [?x =? i] => destruct (Z.eqb_spec x i)
         end;
  destruct (Z.testbit _ i); try reflexivity; lia.

(** X9. [DpadBits.set_bit] sets one bit of the attribute and
    [clear_bit] clears one, leaving every other bit: clearing after
    setting the same bit is the same as clearing, setting after clearing
    the same as setting, setting twice the same as once, and a set and a
    clear of two different bits can be done in either order. *)
Theorem set_and_clear_bit (b k j : Z) (Hk : 0 <= k) (Hj : 0 <= j) :
  (forall i, 0 <= i ->
     Z.testbit (set_bit b k).1 i = Z.testbit b i || (k =? i))
  /\ (forall i, 0 <= i ->
     Z.testbit (clear_bit b k).1 i = Z.testbit b i && negb (k =? i))
  /\ (clear_bit (set_bit b k).1 k).1 = (clear_bit b k).1
  /\ (set_bit (clear_bit b k).1 k).1 = (set_bit b k).1
  /\ set_bit (set_bit b k).1 k = set_bit b k
  /\ (k <> j ->
      (set_bit (clear_bit b j).1 k).1 = (clear_bit (set_bit b k).1 j).1).
Proof.
  split; [| split; [| split; [| split; [| split]]]].
  - intros i Hi. rewrite set_bit_fst by assumption. by apply set_bits.
  - intros i Hi. rewrite clear_bit_fst by assumption. by apply clear_bits.
  - rewrite !clear_bit_fst, set_bit_fst by assumption. by_bits.
  - rewrite !set_bit_fst, clear_bit_fst by assumption. by_bits.
  - assert (Hsame : (set_bit b k).1 = Z.lor (set_bit b k).1 (Z.shiftl 1 k)).
    { rewrite set_bit_fst by assumption. by_bits. }
    unfold set_bit at 1. destruct (Z.ltb_spec k 0); [lia |].
    cbv zeta. rewrite <- Hsame. unfold set_bit.
    destruct (Z.ltb_spec k 0); [lia | reflexivity].
  - intros Hkj.
    rewrite !set_bit_fst, !clear_bit_fst by assumption. by_bits.
Qed.

Lemma set_and_clear_bit_witness :
  (clear_bit (set_bit 5 1).1 1).1 = (clear_bit 5 1).1.
Proof.
  apply (proj1 (proj2 (proj2 (set_and_clear_bit 5 1 2 ltac:(lia) ltac:(lia))))).
Defined.

Lemma dpad_lookup_in_range (m : Z) :
  0 <= m < 16 -> dpad_lookup m = returns (direction_of m).
Proof. intros Hm. unfold dpad_lookup. by rewrite dpad_lookup_direction. Qed.

Lemma pow2_le_of_bit (a k : Z) :
  0 <= a -> 0 <= k -> Z.testbit a k = true -> 2 ^ k <= a.
Proof.
  intros Ha Hk Hbit.
  apply (Z.ldiff_le (2 ^ k) a Ha).
  apply Z.bits_inj'. intros i Hi.
  rewrite Z.ldiff_spec, Z.bits_0, Z.pow2_bits_eqb by assumption.
  destruct (Z.eqb_spec k i) as [<- | _]; [by rewrite Hbit | reflexivity].
Qed.

(** X10. [DpadBits] on a 4-bit attribute.  A negative bit number raises
    ValueError and changes nothing.  Bit numbers 0..3 never raise: the
    method returns the direction of the new mask, which is again 4 bits
    wide.  [set_bit] with a bit number of 4 or more raises IndexError
    after it has stored the bit: the attribute is left at 16 or more.
    [clear_bit] never raises IndexError and never increases the
    attribute. *)
Theorem dpad_bits_edge_cases (b k : Z) (Hb : 0 <= b < 16) :
  (k < 0 ->
     set_bit b k = (b, raises_ValueError)
     /\ clear_bit b k = (b, raises_ValueError))
  /\ (0 <= k < 4 ->
      exists b', set_bit b k = (b', returns (direction_of b'))
                 /\ 0 <= b' < 16)
  /\ (4 <= k ->
      exists b', set_bit b k = (b', raises_IndexError)
                 /\ 16 <= b' /\ Z.testbit b' k = true)
  /\ (0 <= k ->
      exists b', clear_bit b k = (b', returns (direction_of b'))
                 /\ 0 <= b' <= b).
Proof.
  split; [| split; [| split]].
  - intros Hk. unfold set_bit, clear_bit.
    destruct (Z.ltb_spec k 0); [by split | lia].
  - intros Hk. destruct (dpad_update b k true Hb Hk) as [Hrange _].
    eexists. unfold set_bit. destruct (Z.ltb_spec k 0); [lia |].
    cbv zeta. rewrite (dpad_lookup_in_range _ Hrange). by split.
  - intros Hk. exists (Z.lor b (Z.shiftl 1 k)).
    assert (Hbit : Z.testbit (Z.lor b (Z.shiftl 1 k)) k = true).
    { rewrite set_bits by lia. rewrite Z.eqb_refl. apply orb_true_r. }
    assert (Hge : 16 <= Z.lor b (Z.shiftl 1 k)).
    { transitivity (2 ^ k).
      - change 16 with (2 ^ 4). apply Z.pow_le_mono_r; lia.
      - apply pow2_le_of_bit; [| lia | exact Hbit].
        apply Z.lor_nonneg. split; [lia |].
        rewrite Z.shiftl_1_l. apply Z.pow_nonneg. lia. }
    unfold set_bit. destruct (Z.ltb_spec k 0); [lia |]. cbv zeta.
    unfold dpad_lookup. rewrite getitem_beyond by (cbn; lia). by split.
  - intros Hk. exists (Z.land b (Z.lnot (Z.shiftl 1 k))).
    assert (Hle : 0 <= Z.land b (Z.lnot (Z.shiftl 1 k)) <= b).
    { apply Z.ldiff_le; [lia |].
      apply Z.bits_inj'. intros i Hi.
      rewrite Z.ldiff_spec, Z.bits_0, clear_bits by assumption.
      destruct (Z.testbit b i), (k =? i); reflexivity. }
    unfold clear_bit. destruct (Z.ltb_spec k 0); [lia |]. cbv zeta.
    rewrite dpad_lookup_in_range by lia. by split.
Qed.

Lemma dpad_bits_edge_cases_witness :
  exists b', set_bit 3 4 = (b', raises_IndexError) /\ 16 <= b'.
Proof.
  destruct (proj1 (proj2 (proj2 (dpad_bits_edge_cases 3 4 ltac:(lia))))
              ltac:(lia)) as (b' & Hset & Hge & _).
  exists b'. by split.
Defined.

(** ** gpio_handler *)

(** What [all_buttons] holds under a pin: one of the four direction
    markers, an NS button, or nothing. *)
Lemma all_buttons_cases (pin : Z) :
  match direction_pin pin with
  | Some k => all_buttons !! pin = Some (raw (255 - k))
  | None => (exists b, all_buttons !! pin = Some (ns b))
            \/ all_buttons !! pin = None
  end.
Proof.
  unfold all_buttons, gpio_ns_map, direction_pin. cbn [foldl fst snd].
  rewrite !lookup_insert, lookup_empty.
  repeat case_decide; subst; cbn; eauto;
    repeat match goal with
           | |- context [?p =? ?q] => destruct (Z.eqb_spec p q); try lia
           end; eauto.
Qed.

Lemma set_bit_direction (bits k : Z) :
  0 <= bits < 16 -> 0 <= k < 4 ->
  exists bits',
    set_bit bits k = (bits', returns (direction_of bits'))
    /\ 0 <= bits' < 16 /\ bit_replaced bits bits' k true.
Proof.
  intros Hb Hk. destruct (dpad_update bits k true Hb Hk) as [Hrange Hbits].
  eexists. unfold set_bit. destruct (Z.ltb_spec k 0); [lia |]. cbv zeta.
  rewrite (dpad_lookup_in_range _ Hrange). by split.
Qed.

Lemma clear_bit_direction (bits k : Z) :
  0 <= bits < 16 -> 0 <= k < 4 ->
  exists bits',
    clear_bit bits k = (bits', returns (direction_of bits'))
    /\ 0 <= bits' < 16 /\ bit_replaced bits bits' k false.
Proof.
  intros Hb Hk. destruct (dpad_update bits k false Hb Hk) as [Hrange Hbits].
  eexists. unfold clear_bit. destruct (Z.ltb_spec k 0); [lia |]. cbv zeta.
  rewrite (dpad_lookup_in_range _ Hrange). by split.
Qed.

Lemma direction_pin_range (pin k : Z) :
  direction_pin pin = Some k -> 0 <= k < 4 /\ (255 - k <? 128) = false.
Proof.
  unfold direction_pin.
  repeat match goal with
         | |- context [?p =? ?q] => destruct (p =? q)
         end; intros Heq; simplify_eq; split; (lia || reflexivity).
Qed.

(** One callback on a 4-bit [dpad_bits]. *)
Lemma gpio_callback_step (bits : Z) (e : gpio_edge) :
  0 <= bits < 16 ->
  exists bits' out,
    gpio_callback bits e = (bits', returns out)
    /\ 0 <= bits' < 16
    /\ match direction_pin (edge_pin e) with
       | Some k => bit_replaced bits bits' k (edge_is_press e)
                   /\ out = [dPad (direction_of bits')]
       | None => bits' = bits
                 /\ ((exists b, all_buttons !! edge_pin e = Some (ns b)
                                /\ out = [if edge_is_press e then press (ns b)
                                          else release (ns b)])
                     \/ (all_buttons !! edge_pin e = None /\ out = []))
       end.
Proof.
  intros Hb. pose proof (all_buttons_cases (edge_pin e)) as Hcase.
  destruct (direction_pin (edge_pin e)) as [k |] eqn:Hpin.
  - destruct (direction_pin_range _ _ Hpin) as [Hk H128].
    destruct e as [pin | pin]; cbn [edge_pin edge_is_press gpio_callback] in *;
      unfold gpio_pressed, gpio_released; rewrite Hcase, H128;
      replace (255 - (255 - k)) with k by lia.
    + destruct (set_bit_direction bits k Hb Hk)
        as (bits' & -> & Hrange & Hbits).
      exists bits', [dPad (direction_of bits')].
      split; [reflexivity |]. split; [exact Hrange |].
      split; [exact Hbits | reflexivity].
    + destruct (clear_bit_direction bits k Hb Hk)
        as (bits' & -> & Hrange & Hbits).
      exists bits', [dPad (direction_of bits')].
      split; [reflexivity |]. split; [exact Hrange |].
      split; [exact Hbits | reflexivity].
  - destruct Hcase as [[b Hlook] | Hlook];
      destruct e as [pin | pin]; cbn [edge_pin edge_is_press gpio_callback] in *;
      unfold gpio_pressed, gpio_released; rewrite Hlook;
      eexists _, _; (split; [reflexivity |]); (split; [exact Hb |]);
      (split; [reflexivity |]); eauto.
Qed.

Lemma held_cons (pin : Z) (before : bool) (e : gpio_edge)
    (rest : list gpio_edge) :
  held pin before (e :: rest) = held pin (held pin before [e]) rest.
Proof. reflexivity. Qed.

Lemma callback_tracks_held (bits bits' : Z) (e : gpio_edge)
    (out : list call) :
  match direction_pin (edge_pin e) with
  | Some k => bit_replaced bits bits' k (edge_is_press e)
              /\ out = [dPad (direction_of bits')]
  | None => bits' = bits
            /\ ((exists b, all_buttons !! edge_pin e = Some (ns b)
                           /\ out = [if edge_is_press e then press (ns b)
                                     else release (ns b)])
                \/ (all_buttons !! edge_pin e = None /\ out = []))
  end ->
  up_bit bits' = held 5 (up_bit bits) [e]
  /\ right_bit bits' = held 6 (right_bit bits) [e]
  /\ down_bit bits' = held 13 (down_bit bits) [e]
  /\ left_bit bits' = held 19 (left_bit bits) [e]
  /\ (length out <= 1)%nat.
Proof.
  unfold direction_pin, held, bit_replaced.
  destruct e as [pin | pin]; cbn [edge_pin edge_is_press foldl];
    destruct (Z.eqb_spec pin 5) as [-> | H5];
    [| destruct (Z.eqb_spec pin 6) as [-> | H6];
       [| destruct (Z.eqb_spec pin 13) as [-> | H13];
          [| destruct (Z.eqb_spec pin 19) as [-> | H19]]] |
     | destruct (Z.eqb_spec pin 6) as [-> | H6];
       [| destruct (Z.eqb_spec pin 13) as [-> | H13];
          [| destruct (Z.eqb_spec pin 19) as [-> | H19]]]];
    cbn;
    try (intros ((Hu & Hr & Hd & Hl) & ->); cbn; repeat split; (assumption || lia));
    intros [-> [(b & _ & ->) | [_ ->]]]; cbn; repeat split; lia.
Qed.

(** X11. One GPIO callback on a 4-bit [dpad_bits] never raises.  On a
    pin that is not in [all_buttons] it makes no call and changes
    nothing.  On GPIO 5, 6, 13 or 19 it sets (press) or clears (release)
    bit 0, 1, 2 or 3, leaves the other bits and calls dPad with the
    direction of the new mask.  On any other pin of the table it calls
    press or release with the NS button of the pin and leaves
    [dpad_bits]. *)
Theorem gpio_callback_cases (bits : Z) (e : gpio_edge)
    (Hb : 0 <= bits < 16) :
  exists bits' out,
    gpio_callback bits e = (bits', returns out)
    /\ 0 <= bits' < 16
    /\ match direction_pin (edge_pin e) with
       | Some k => bit_replaced bits bits' k (edge_is_press e)
                   /\ out = [dPad (direction_of bits')]
       | None => bits' = bits
                 /\ ((exists b, all_buttons !! edge_pin e = Some (ns b)
                                /\ out = [if edge_is_press e then press (ns b)
                                          else release (ns b)])
                     \/ (all_buttons !! edge_pin e = None /\ out = []))
       end.
Proof.
  pose proof (all_buttons_cases (edge_pin e)) as Hcase.
  destruct (direction_pin (edge_pin e)) as [k |] eqn:Hpin.
  - destruct (direction_pin_range _ _ Hpin) as [Hk H128].
    destruct e as [pin | pin]; cbn [edge_pin edge_is_press gpio_callback] in *;
      unfold gpio_pressed, gpio_released; rewrite Hcase, H128;
      replace (255 - (255 - k)) with k by lia.
    + destruct (set_bit_direction bits k Hb Hk)
        as (bits' & -> & Hrange & Hbits).
      exists bits', [dPad (direction_of bits')].
      split; [reflexivity |]. split; [exact Hrange |].
      split; [exact Hbits | reflexivity].
    + destruct (clear_bit_direction bits k Hb Hk)
        as (bits' & -> & Hrange & Hbits).
      exists bits', [dPad (direction_of bits')].
      split; [reflexivity |]. split; [exact Hrange |].
      split; [exact Hbits | reflexivity].
  - destruct Hcase as [[b Hlook] | Hlook];
      destruct e as [pin | pin]; cbn [edge_pin edge_is_press gpio_callback] in *;
      unfold gpio_pressed, gpio_released; rewrite Hlook;
      eexists _, _; (split; [reflexivity |]); (split; [exact Hb |]);
      (split; [reflexivity |]); eauto.
Qed.

Lemma gpio_callback_cases_witness :
  exists bits' out,
    gpio_callback 1 (when_pressed 3) = (bits', returns out)
    /\ bits' = 1 /\ out = [].
Proof.
  destruct (gpio_callback_cases 1 (when_pressed 3) ltac:(lia))
    as (bits' & out & Hcall & _ & Hcase).
  change (direction_pin (edge_pin (when_pressed 3))) with (@None Z) in Hcase.
  cbv iota in Hcase. destruct Hcase as [Hsame [(b & Hb & _) | [_ Hout]]].
  - vm_compute in Hb. discriminate.
  - exists bits', out. split; [exact Hcall |]. split; assumption.
Defined.

(** X12. Over any sequence of edges, from a 4-bit [dpad_bits], no GPIO
    callback raises, at most one call is made per edge, and the four
    bits say which of the direction pins are held: bit 0 is set exactly
    when the last edge on GPIO 5 was a press, and so for bit 1 and GPIO
    6, bit 2 and GPIO 13, bit 3 and GPIO 19. *)
Theorem gpio_bits_are_held_pins (bits0 : Z) (edges : list gpio_edge)
    (Hbits : 0 <= bits0 < 16) :
  exists bits out,
    gpio_handler bits0 edges = (bits, returns out)
    /\ 0 <= bits < 16
    /\ (length out <= length edges)%nat
    /\ up_bit bits = held 5 (up_bit bits0) edges
    /\ right_bit bits = held 6 (right_bit bits0) edges
    /\ down_bit bits = held 13 (down_bit bits0) edges
    /\ left_bit bits = held 19 (left_bit bits0) edges.
Proof.
  revert bits0 Hbits. induction edges as [| e rest IH]; intros bits0 Hbits.
  { exists bits0, []. cbn. repeat split; lia. }
  destruct (gpio_callback_step bits0 e Hbits) as (bits1 & out1 & Hcall & H1 & Hcase).
  apply callback_tracks_held in Hcase as (Hu & Hr & Hd & Hl & Hlen1).
  destruct (IH bits1 H1) as (bits & out & Hrun & Hrange & Hlen & Hu' & Hr' & Hd' & Hl').
  exists bits, (out1 ++ out). cbn [gpio_handler]. rewrite Hcall, Hrun.
  split; [reflexivity |]. split; [exact Hrange |].
  split; [rewrite length_app; cbn; lia |].
  rewrite (held_cons 5 _ e rest), (held_cons 6 _ e rest),
    (held_cons 13 _ e rest), (held_cons 19 _ e rest).
  rewrite <- Hu, <- Hr, <- Hd, <- Hl. by repeat split.
Qed.

Lemma gpio_bits_are_held_pins_witness :
  exists bits out,
    gpio_handler 0 [when_pressed 19; when_pressed 6; when_released 19]
    = (bits, returns out)
    /\ left_bit bits = false /\ right_bit bits = true.
Proof.
  destruct (gpio_bits_are_held_pins 0
              [when_pressed 19; when_pressed 6; when_released 19] ltac:(lia))
    as (bits & out & Hrun & _ & _ & _ & Hr & _ & Hl).
  exists bits, out. split; [exact Hrun |]. split; [exact Hl | exact Hr].
Defined.

(** ** read_speech *)

Lemma omap_pressed_presses (l : list NSButton.t) :
  omap pressed_button (map (fun btn => press (ns btn)) l) = map ns l
  /\ omap released_button (map (fun btn => press (ns btn)) l) = []
  /\ omap dpad_direction (map (fun btn => press (ns btn)) l) = [].
Proof.
  induction l as [| b l (IH1 & IH2 & IH3)]; [done |].
  cbn. rewrite IH1. by split.
Qed.

Lemma omap_released_releases (l : list NSButton.t) :
  omap released_button (map (fun btn => release (ns btn)) l) = map ns l
  /\ omap pressed_button (map (fun btn => release (ns btn)) l) = []
  /\ omap dpad_direction (map (fun btn => release (ns btn)) l) = [].
Proof.
  induction l as [| b l (IH1 & IH2 & IH3)]; [done |].
  cbn. rewrite IH1. by split.
Qed.

Lemma do_controls_calls (c : controls) :
  let btns := match buttons c with Some l => map ns l | None => [] end in
  omap pressed_button (do_controls c) = btns
  /\ omap released_button (do_controls c) = rev btns
  /\ omap dpad_direction (do_controls c)
     = match dpad c with Some d => [d; NSDPad.CENTERED] | None => [] end.
Proof.
  unfold do_controls. rewrite !omap_app.
  destruct (buttons c) as [l |], (dpad c) as [d |]; cbn [omap];
    try (destruct (omap_pressed_presses l) as (-> & -> & ->);
         destruct (omap_released_releases (rev l)) as (-> & -> & ->));
    cbn; rewrite ?app_nil_r, ?map_rev; repeat split; reflexivity.
Qed.

Lemma speech_command_calls (line : string) :
  omap released_button (speech_command line)
  = rev (omap pressed_button (speech_command line))
  /\ (omap dpad_direction (speech_command line) = []
      \/ exists d, omap dpad_direction (speech_command line)
                   = [d; NSDPad.CENTERED]).
Proof.
  unfold speech_command. destruct (COMMAND_DICT !! rstrip line) as [c |].
  - destruct (do_controls_calls c) as (-> & -> & ->).
    split; [reflexivity |]. destruct (dpad c); eauto.
  - split; [reflexivity | by left].
Qed.

(** X13. Whatever is said, the speech thread leaves nothing held: each
    line releases exactly the buttons it pressed, in reverse order, so
    over all of the input the releases are a permutation of the presses;
    a line that sets the direction pad centres it again, so the last dPad
    call made, if there is one, is CENTERED. *)
Theorem speech_leaves_nothing_held (stdin : list string) :
  Forall (fun line =>
            omap released_button (speech_command line)
            = rev (omap pressed_button (speech_command line))) stdin
  /\ omap released_button (read_speech stdin)
     ≡ₚ omap pressed_button (read_speech stdin)
  /\ (last (omap dpad_direction (read_speech stdin)) = None
      \/ last (omap dpad_direction (read_speech stdin))
         = Some NSDPad.CENTERED).
Proof.
  split; [| split].
  - apply Forall_forall. intros line _. apply speech_command_calls.
  - induction stdin as [| line rest IH]; [done |].
    unfold read_speech in *. cbn [flat_map]. rewrite !omap_app.
    rewrite (proj1 (speech_command_calls line)), IH.
    by rewrite <- (Permutation_rev (omap pressed_button (speech_command line))).
  - induction stdin as [| line rest IH]; [by left |].
    unfold read_speech in *. cbn [flat_map]. rewrite omap_app, last_app.
    destruct IH as [-> | ->]; [| by right].
    destruct (proj2 (speech_command_calls line)) as [-> | [d ->]];
      [by left | by right].
Qed.

Lemma rstrip_all_space (w : string) : all_space w = true -> rstrip w = ""%string.
Proof.
  induction w as [| c w IH]; [done |].
  cbn [all_space rstrip]. intros [Hc Hw]%andb_true_iff.
  rewrite (IH Hw). cbv iota. by rewrite Hc.
Qed.

Lemma rstrip_app_space (s w : string) :
  all_space w = true -> rstrip (s ++ w) = rstrip s.
Proof.
  intros Hw. induction s as [| c s IH].
  - by apply rstrip_all_space.
  - change (rstrip (String c (s ++ w)) = rstrip (String c s)).
    cbn [rstrip]. by rewrite IH.
Qed.

(** No phrase of the table ends in white space. *)
Lemma COMMAND_DICT_keys_stripped :
  map_Forall (fun key _ => rstrip key = key) COMMAND_DICT.
Proof.
  apply (bool_decide_unpack
           (map_Forall (fun key _ => rstrip key = key) COMMAND_DICT)).
  vm_compute. exact I.
Qed.

Lemma rstrip_keeps_last (line : string) (c : ascii) :
  isspace c = false ->
  rstrip (line ++ String c "") = (line ++ String c "")%string.
Proof.
  intros Hc. induction line as [| a line IH].
  - change ((if isspace c then "" else String c "")%string = String c "").
    by rewrite Hc.
  - change (rstrip (String a (line ++ String c ""))
            = String a (line ++ String c "")).
    cbn [rstrip]. rewrite IH. by destruct line.
Qed.

(** X14. A line is matched after its trailing white space is removed,
    and only that.  On lines of code points below 256, whose white
    space is 9..13, 28..32, 133 and 160: white space added at the end of
    a line changes nothing, every phrase of [COMMAND_DICT] followed by
    white space (the newline that ends the line) runs the controls
    stored for it, and a line that ends in a character that is no white
    space is looked up as it is. *)
Theorem phrase_then_white_space (key w : string) (c : controls)
    (Hkey : COMMAND_DICT !! key = Some c) (Hw : all_space w = true) :
  speech_command (key ++ w) = do_controls c
  /\ (forall line : string,
        rstrip (line ++ w) = rstrip line
        /\ speech_command (line ++ w) = speech_command line)
  /\ rstrip (rstrip (key ++ w)) = rstrip (key ++ w)
  /\ (forall (line : string) (last : ascii),
        isspace last = false ->
        rstrip (line ++ String last "") = (line ++ String last "")%string).
Proof.
  pose proof (COMMAND_DICT_keys_stripped key c Hkey) as Hstripped.
  cbn beta in Hstripped.
  assert (Hrs : rstrip (key ++ w) = key)
    by (by rewrite rstrip_app_space, Hstripped).
  split; [| split; [| split]].
  - unfold speech_command. by rewrite Hrs, Hkey.
  - intros line. unfold speech_command.
    by rewrite rstrip_app_space.
  - by rewrite Hrs, Hstripped.
  - apply rstrip_keeps_last.
Qed.

Lemma phrase_then_white_space_witness :
  speech_command ("home" ++ String (ascii_of_nat 160) (String (ascii_of_nat 10) ""))
  = [press (ns NSButton.HOME); release (ns NSButton.HOME)].
Proof.
  apply (proj1 (phrase_then_white_space "home"
                  (String (ascii_of_nat 160) (String (ascii_of_nat 10) ""))
                  {| buttons := Some [NSButton.HOME]; dpad := None |}
                  eq_refl eq_refl)).
Defined.

(** ** main: what an iteration keeps and adds *)

Lemma registry_eq (r1 r2 : registry) :
  dr_count r1 = dr_count r2 -> joysticks r1 = joysticks r2 ->
  started r1 = started r2 -> r1 = r2.
Proof. destruct r1, r2. cbn. by intros -> -> ->. Qed.

(** The chain, with what it does to [dr_count]. *)
Lemma attach_full (k n : string) (r : registry) :
  (known n = false /\ attach k n r = r)
  \/ (known n = true
      /\ exists t delta,
           (delta = 0 \/ delta = 1)
           /\ dr_count (attach k n r) = dr_count r + delta
           /\ joysticks (attach k n r)
              = <[k := {| thread_target := t; jsdev := k; ident := started r |}]>
                  (joysticks r)
           /\ started (attach k n r) = S (started r)).
Proof.
  unfold attach, known, signatures. cbn [existsb].
  repeat match goal with
         | |- context [contains ?sig n] => destruct (contains sig n)
         end; cbn [orb];
    try (left; split; reflexivity);
    right; (split; [reflexivity |]);
    try (eexists _, 0; split; [by left |]; cbn;
         split; [lia |]; split; reflexivity).
  all: destruct (negb _); eexists _, 1; (split; [by right |]); cbn;
    (split; [lia |]); split; reflexivity.
Qed.

Lemma forget_nothing_ended (h : host) (r : registry) :
  (forall k t, joysticks r !! k = Some t -> is_alive h t = true) ->
  forget h r = r.
Proof.
  intros Halive. apply registry_eq; [reflexivity | | reflexivity].
  apply map_eq. intros k. apply option_eq. intros t.
  rewrite forget_lookup. split; [by intros [Hk _] | eauto].
Qed.

Lemma scan_nothing_new (h : host) (r : registry) (fns : list string) :
  Forall (nothing_new h r) fns -> scan h fns r = Ok r.
Proof.
  induction 1 as [| fn rest Hfn Hrest IH]; [reflexivity |].
  cbn [scan]. destruct Hfn as [Hjs | [[t Ht] | (Hopen & name & Hname & Hunk)]].
  - by rewrite Hjs.
  - rewrite Ht. by destruct (String.prefix "js" fn).
  - destruct (String.prefix "js" fn); [| exact IH].
    destruct (joysticks r !! jsname fn); [exact IH |].
    rewrite Hopen, Hname.
    destruct (attach_full (jsname fn) (upper name) r) as [[_ ->] | [Hk _]];
      [exact IH | congruence].
Qed.

(** Where the entries of a scan come from. *)
Lemma scan_new_entries (h : host) (fns : list string) :
  forall r r', scan h fns r = Ok r' ->
  forall k t, joysticks r' !! k = Some t ->
    joysticks r !! k = Some t
    \/ (exists fn name,
          fn ∈ fns /\ String.prefix "js" fn = true /\ k = jsname fn
          /\ open_ok h k = true /\ JSIOCGNAME h k = Some name
          /\ known (upper name) = true
          /\ jsdev t = k /\ (started r <= ident t < started r')%nat).
Proof.
  induction fns as [| fn rest IH]; intros r r' Hscan k t Hk;
    cbn [scan] in Hscan.
  { simplify_eq. by left. }
  assert (Hlater : forall r1,
             scan h rest r1 = Ok r' -> (started r <= started r1)%nat ->
             joysticks r1 !! k = Some t
             \/ (exists fn0 name,
                   fn0 ∈ fn :: rest /\ String.prefix "js" fn0 = true
                   /\ k = jsname fn0 /\ open_ok h k = true
                   /\ JSIOCGNAME h k = Some name /\ known (upper name) = true
                   /\ jsdev t = k /\ (started r <= ident t < started r')%nat)).
  { intros r1 Hscan1 Hle. destruct (IH _ _ Hscan1 _ _ Hk)
      as [Hold | (fn0 & name & Hin & Hjs & -> & Hopen & Hname & Hknown & Hdev & Hid)];
      [by left | right].
    exists fn0, name. split; [by apply list_elem_of_further |].
    repeat (split; [done |]). lia. }
  destruct (String.prefix "js" fn) eqn:Hjs;
    [| by destruct (Hlater r Hscan ltac:(lia)); [left | right]].
  destruct (joysticks r !! jsname fn) as [t0 |] eqn:Hfree;
    [by destruct (Hlater r Hscan ltac:(lia)); [left | right] |].
  destruct (open_ok h (jsname fn)) eqn:Hopen; [| simplify_eq; by left].
  destruct (JSIOCGNAME h (jsname fn)) as [name |] eqn:Hname; [| discriminate].
  destruct (scan_grows _ _ _ _ Hscan) as (Hle & _ & _).
  destruct (attach_full (jsname fn) (upper name) r)
    as [[_ Heq] | (Hknown & t1 & delta & _ & _ & Hjs1 & Hst1)].
  { rewrite Heq in Hscan. by destruct (Hlater r Hscan ltac:(lia)); [left | right]. }
  destruct (Hlater _ Hscan ltac:(lia)) as [Hk1 | Hnew]; [| by right].
  rewrite Hjs1 in Hk1. apply lookup_insert_Some in Hk1 as [[<- <-] | [_ Hk1]];
    [right | by left].
  exists fn, name. split; [apply list_elem_of_here |].
  repeat (split; [done |]). cbn. lia.
Qed.

Lemma scan_app_nothing_new (h : host) (r : registry) (pre rest : list string) :
  Forall (nothing_new h r) pre -> scan h (pre ++ rest) r = scan h rest r.
Proof.
  induction 1 as [| fn pre Hfn Hpre IH]; [reflexivity |].
  cbn [app scan]. destruct Hfn as [Hjs | [[t Ht] | (Hopen & name & Hname & Hunk)]].
  - by rewrite Hjs.
  - rewrite Ht. by destruct (String.prefix "js" fn).
  - destruct (String.prefix "js" fn); [| exact IH].
    destruct (joysticks r !! jsname fn); [exact IH |].
    rewrite Hopen, Hname.
    destruct (attach_full (jsname fn) (upper name) r) as [[_ ->] | [Hk _]];
      [exact IH | congruence].
Qed.



(** X16. Every entry of [joysticks] after an iteration is either an
    entry it had, with its thread still alive, or a thread started by the
    iteration on a listed file whose name starts with js, that opened,
    and whose device name contains one of the seven signatures; the
    thread reads the file it is tracked under.  So files that are not
    joysticks and devices of unknown name are never tracked. *)
Theorem tracked_entries_origin (h : host) (r r' : registry)
    (Hpoll : poll h r = Ok r') (k : string) (t : Thread)
    (Hk : joysticks r' !! k = Some t) :
  (joysticks r !! k = Some t /\ is_alive h t = true)
  \/ (exists fn name,
        fn ∈ listdir h /\ String.prefix "js" fn = true /\ k = jsname fn
        /\ open_ok h k = true /\ JSIOCGNAME h k = Some name
        /\ known (upper name) = true
        /\ jsdev t = k /\ (started r <= ident t < started r')%nat).
Proof.
  unfold poll in Hpoll.
  destruct (scan_new_entries _ _ _ _ Hpoll _ _ Hk) as [Hold | Hnew].
  - left. by apply forget_lookup.
  - by right.
Qed.

Lemma tracked_entries_origin_witness :
  exists r' t,
    poll horipad_replugged horipad_attached = Ok r'
    /\ joysticks r' !! jsname "js0" = Some t
    /\ jsdev t = jsname "js0" /\ (1 <= ident t)%nat.
Proof.
  set (t := {| thread_target := horipad; jsdev := jsname "js0"; ident := 1 |}).
  set (r' := {| dr_count := 0;
                joysticks := <[jsname "js0" := t]> ∅;
                started := 2 |}).
  assert (Hpoll : poll horipad_replugged horipad_attached = Ok r')
    by (vm_compute; reflexivity).
  assert (Hk : joysticks r' !! jsname "js0" = Some t) by apply lookup_insert_eq.
  exists r', t. split; [exact Hpoll |]. split; [exact Hk |].
  destruct (tracked_entries_origin horipad_replugged horipad_attached r'
              Hpoll (jsname "js0") t Hk)
    as [[Hold _] | (fn & name & _ & _ & _ & _ & _ & _ & Hdev & Hid)].
  - cbn in Hold. rewrite lookup_insert_eq in Hold. by simplify_eq.
  - split; [exact Hdev | exact (proj1 Hid)].
Defined.

(** ** main: the registry stays well formed *)

Lemma forget_well_formed (h : host) (r : registry) :
  well_formed r -> well_formed (forget h r).
Proof.
  intros (Hent & Huniq & Hdr). split; [| split; [| exact Hdr]].
  - intros k t Hk. apply forget_lookup in Hk as [Hk _]. by apply Hent.
  - intros k1 k2 t1 t2 Hk1 Hk2.
    apply forget_lookup in Hk1 as [Hk1 _], Hk2 as [Hk2 _]. by eapply Huniq.
Qed.

Lemma attach_well_formed (fn n : string) (r : registry) :
  String.prefix "js" fn = true -> joysticks r !! jsname fn = None ->
  well_formed r -> well_formed (attach (jsname fn) n r).
Proof.
  intros Hjs Hfree (Hent & Huniq & Hdr).
  destruct (attach_full (jsname fn) n r)
    as [[_ ->] | (_ & t & delta & Hdelta & Hcount & Hmap & Hst)];
    [exact (conj Hent (conj Huniq Hdr)) |].
  unfold well_formed. rewrite Hcount, Hmap, Hst.
  split; [| split; [| lia]].
  - intros k t0 Hk. apply lookup_insert_Some in Hk as [[<- <-] | [_ Hk]].
    + cbn. split; [reflexivity |]. split; [lia | eauto].
    + destruct (Hent _ _ Hk) as (Hdev & Hid & Hfn).
      split; [exact Hdev |]. split; [lia | exact Hfn].
  - intros k1 k2 t1 t2 Hk1 Hk2 Hid.
    apply lookup_insert_Some in Hk1 as [[<- <-] | [Hne1 Hk1]];
      apply lookup_insert_Some in Hk2 as [[<- <-] | [Hne2 Hk2]].
    + reflexivity.
    + destruct (Hent _ _ Hk2) as (_ & Hlt & _). cbn in Hid. lia.
    + destruct (Hent _ _ Hk1) as (_ & Hlt & _). cbn in Hid. lia.
    + by eapply Huniq.
Qed.

Lemma scan_well_formed (h : host) (fns : list string) :
  forall r r', scan h fns r = Ok r' -> well_formed r -> well_formed r'.
Proof.
  induction fns as [| fn rest IH]; intros r r' Hscan Hwf; cbn [scan] in Hscan.
  { by simplify_eq. }
  destruct (String.prefix "js" fn) eqn:Hjs; [| by eapply IH].
  destruct (joysticks r !! jsname fn) eqn:Hfree; [by eapply IH |].
  destruct (open_ok h (jsname fn)); [| by simplify_eq].
  destruct (JSIOCGNAME h (jsname fn)) as [name |]; [| discriminate].
  eapply IH; [exact Hscan |]. by apply attach_well_formed.
Qed.

Lemma main_loop_well_formed (hs : list host) :
  forall r r', main_loop hs r = Ok r' -> well_formed r -> well_formed r'.
Proof.
  induction hs as [| h hs IH]; intros r r' Hrun Hwf; cbn in Hrun.
  { by simplify_eq. }
  destruct (poll h r) as [r1 |] eqn:Hpoll; [| discriminate].
  eapply IH; [exact Hrun |].
  eapply scan_well_formed; [exact Hpoll |]. by apply forget_well_formed.
Qed.

(** X18. Whatever the host shows, iteration after iteration, the
    registry [main] has reached is well formed: every tracked thread
    reads the joystick file it is tracked under, no thread is tracked
    under two paths, and [dr_count] lies between 0 and the number of
    threads started. *)
Theorem main_keeps_registry_well_formed (hs : list host) (r : registry)
    (Hrun : main_loop hs main_start = Ok r) :
  well_formed r.
Proof.
  apply (main_loop_well_formed hs main_start r Hrun).
  split; [| split; [| cbn; lia]].
  - intros k t Hk. cbn in Hk. by rewrite lookup_empty in Hk.
  - intros k1 k2 t1 t2 Hk. cbn in Hk. by rewrite lookup_empty in Hk.
Qed.

Lemma main_keeps_registry_well_formed_witness :
  exists r,
    main_loop [one_stick; two_sticks] main_start = Ok r /\ well_formed r.
Proof.
  set (r := {| dr_count := 2;
               joysticks :=
                 <[jsname "js1" := {| thread_target := dragon_rise true;
                                      jsdev := jsname "js1"; ident := 1 |}]>
                   (<[jsname "js0" := {| thread_target := dragon_rise false;
                                         jsdev := jsname "js0"; ident := 0 |}]>
                      ∅);
               started := 2 |}).
  assert (Hrun : main_loop [one_stick; two_sticks] main_start = Ok r)
    by (vm_compute; reflexivity).
  exists r. split; [exact Hrun |].
  exact (main_keeps_registry_well_formed _ r Hrun).
Defined.

(** ** main: iterations that start nothing, and a stick found alone *)

(** X19. An iteration in which no tracked thread has ended and every
    listed file is passed over (it is not a joystick file, or is tracked
    already, or is a joystick of unknown name) leaves the registry as it
    was; so does any number of such iterations. *)
Theorem quiet_iteration_changes_nothing (h : host) (r : registry) (n : nat)
    (Halive : forall k t, joysticks r !! k = Some t -> is_alive h t = true)
    (Hquiet : Forall (nothing_new h r) (listdir h)) :
  poll h r = Ok r /\ main_loop (replicate n h) r = Ok r.
Proof.
  assert (Hpoll : poll h r = Ok r).
  { unfold poll. rewrite (forget_nothing_ended h r Halive).
    by apply scan_nothing_new. }
  split; [exact Hpoll |].
  induction n as [| n IH]; [reflexivity |].
  cbn [replicate main_loop]. rewrite Hpoll. exact IH.
Qed.

Lemma quiet_iteration_changes_nothing_witness :
  poll one_stick horipad_attached = Ok horipad_attached
  /\ main_loop (replicate 3 one_stick) horipad_attached = Ok horipad_attached.
Proof.
  apply (quiet_iteration_changes_nothing one_stick horipad_attached 3).
  - intros k t _. reflexivity.
  - apply Forall_cons. split; [| by apply Forall_nil].
    right. left. eexists. apply lookup_insert_eq.
Defined.

(** X20. The side of an arcade stick depends on [dr_count] alone: when
    the one new file of an iteration is a Dragon Rise stick, its thread
    is started with [right_side] true exactly when [dr_count] is odd,
    whichever sticks are attached at that moment, and [dr_count] grows by
    one.  Forgetting a thread never lowers [dr_count]. *)
Theorem lone_stick_side (h : host) (r : registry)
    (pre post : list string) (fn : string)
    (Hlist : listdir h = pre ++ fn :: post)
    (Halive : forall k t, joysticks r !! k = Some t -> is_alive h t = true)
    (Hpre : Forall (nothing_new h r) pre)
    (Hpost : Forall (nothing_new h r) post)
    (Hfn : is_dragon_rise h fn)
    (Hfree : joysticks r !! jsname fn = None) :
  poll h r
  = Ok {| dr_count := dr_count r + 1;
          joysticks :=
            <[jsname fn := {| thread_target := dragon_rise (Z.odd (dr_count r));
                              jsdev := jsname fn;
                              ident := started r |}]> (joysticks r);
          started := S (started r) |}
  /\ forall h', dr_count (forget h' r) = dr_count r.
Proof.
  split; [| reflexivity].
  unfold poll. rewrite (forget_nothing_ended h r Halive), Hlist.
  rewrite (scan_app_nothing_new _ _ _ _ Hpre).
  destruct Hfn as (Hjs & Hopen & name & Hname & Hh & Hd).
  cbn [scan]. rewrite Hjs, Hfree, Hopen, Hname.
  rewrite (attach_dragon_rise _ _ _ Hh Hd).
  apply scan_nothing_new.
  eapply Forall_impl; [exact Hpost |].
  intros fn' [Hjs' | [[t Ht] | Hunk]]; [by left | | by right; right].
  right. left. cbn [joysticks].
  destruct (decide (jsname fn = jsname fn')) as [<- | Hne].
  - rewrite lookup_insert_eq. eauto.
  - rewrite lookup_insert_ne by exact Hne. eauto.
Qed.

Lemma lone_stick_side_witness :
  poll two_sticks right_stick_forgotten
  = Ok {| dr_count := 3;
          joysticks :=
            <[jsname "js1" := {| thread_target := dragon_rise false;
                                 jsdev := jsname "js1"; ident := 2 |}]>
              (joysticks right_stick_forgotten);
          started := 3 |}.
Proof.
  apply (proj1 (lone_stick_side two_sticks right_stick_forgotten
                  ["js0"%string] [] "js1"%string eq_refl
                  (fun _ _ _ => eq_refl)
                  ltac:(apply Forall_cons; split; [| by apply Forall_nil];
                        right; left; eexists; apply lookup_singleton_eq)
                  ltac:(by apply Forall_nil)
                  ltac:(repeat split; eexists; repeat split; reflexivity)
                  ltac:(by apply lookup_singleton_ne))).
Defined.
